(** * Booking backend: flights, reservations and the access gate

    A shallow embedding of the decision logic of the FastAPI booking
    backend ([src/auth.py], [src/flights/router.py],
    [src/flights/schemas.py], [src/bookings/router.py]) together with the
    properties its specification states about it.

    Conventions of the embedding:
    - a Python [dict] is an insertion-ordered association list ([Py.dict]):
      [d[k] = v] overwrites in place when [k] is present and appends
      otherwise, [d.values()] lists the values in insertion order;
    - module-level mutable state ([flights_db], the repository's
      [reservations]) is passed explicitly: an endpoint takes the store and
      returns its outcome together with the store it leaves behind;
    - [raise HTTPException(...)] is the [Raise] outcome of [Http.result];
    - a [datetime] is naive or timezone-aware and compared as [==] compares
      them ([Py.datetime_eq]);
    - an object held by a store is held by exactly one key (every insertion
      stores a freshly built object), so mutating the object through a
      reference obtained from the store is an update of that entry. *)

From Stdlib Require Import ZArith.
From stdpp Require Import base decidable option list strings.

Local Open Scope Z_scope.
Local Open Scope string_scope.
Local Open Scope list_scope.

(** ** Python values *)

Module Py.

(** Truthiness of an [Optional[str]]: [None] and the empty string are
    falsy, every other string is truthy. *)
Definition truthy_str (v : option string) : bool :=
  match v with
  | None => false
  | Some s => if decide (s = "") then false else true
  end.

(** [v is not None]. *)
Definition is_not_None {A} (v : option A) : bool :=
  match v with
  | None => false
  | Some _ => true
  end.

(** A wall-clock reading, in microseconds. *)
Definition wall_clock : Type := Z.

(** [datetime] values: a naive datetime is its wall-clock reading, an
    aware one its wall-clock reading together with the offset of its time
    zone from UTC.  A datetime object is always truthy. *)
Inductive datetime : Type :=
| naive (wall : wall_clock)
| aware (wall : wall_clock) (utcoffset : Z).

Global Instance datetime_eq_dec : EqDecision datetime.
Proof. solve_decision. Defined.

(** [a == b] on datetimes: two naive datetimes are equal when their
    wall-clock readings are, two aware ones when they denote the same
    instant (reading minus offset), and a naive and an aware one never
    are. *)
Definition datetime_eq (a b : datetime) : bool :=
  match a, b with
  | naive x, naive y => bool_decide (x = y)
  | aware x x_offset, aware y y_offset => bool_decide (x - x_offset = y - y_offset)
  | naive _, aware _ _ | aware _ _, naive _ => false
  end.

(** [a != b] on datetimes. *)
Definition datetime_ne (a b : datetime) : bool := negb (datetime_eq a b).

(** A dict with keys in [K] and values in [V], in insertion order. *)
Abbreviation dict K V := (list (K * V)).

Section Dict.
Context {K V : Type} `{EqDecision K}.
Implicit Types d : dict K V.

Definition empty : dict K V := [].

(** [d.get(k)] *)
Fixpoint get (k : K) d : option V :=
  match d with
  | [] => None
  | (k', v) :: d' => if decide (k' = k) then Some v else get k d'
  end.

(** [k in d] *)
Definition contains (k : K) d : bool :=
  match get k d with
  | Some _ => true
  | None => false
  end.

(** [d[k] = v] *)
Fixpoint set (k : K) (v : V) d : dict K V :=
  match d with
  | [] => [(k, v)]
  | (k', v') :: d' =>
      if decide (k' = k) then (k', v) :: d' else (k', v') :: set k v d'
  end.

(** In-place mutation of the object stored under [k]: the entry keeps
    its position, an absent key leaves the store as it is. *)
Fixpoint mutate (f : V → V) (k : K) d : dict K V :=
  match d with
  | [] => []
  | (k', v) :: d' =>
      if decide (k' = k) then (k', f v) :: d' else (k', v) :: mutate f k d'
  end.

(** [d.keys()] and [d.values()] *)
Definition keys d : list K := fst <$> d.
Definition values d : list V := snd <$> d.

(** Representation invariant: a dict holds a key at most once. *)
Definition unique_keys d : Prop := NoDup (keys d).
End Dict.

End Py.

(** ** HTTP outcomes *)

Module Http.

Record HTTPException : Type := mkHTTPException {
  status_code : Z;
  detail : string
}.

Inductive result (A : Type) : Type :=
| Ok (a : A)
| Raise (e : HTTPException).
Global Arguments Ok {A} a.
Global Arguments Raise {A} e.

Definition HTTP_400_BAD_REQUEST : Z := 400.
Definition HTTP_401_UNAUTHORIZED : Z := 401.
Definition HTTP_403_FORBIDDEN : Z := 403.
Definition HTTP_404_NOT_FOUND : Z := 404.

(** The error classes of the specification, read off the status code. *)
Definition is_status {A} (code : Z) (r : result A) : Prop :=
  match r with
  | Ok _ => False
  | Raise e => status_code e = code
  end.

Definition Conflict {A} : result A → Prop := is_status HTTP_400_BAD_REQUEST.
Definition Unauthenticated {A} : result A → Prop := is_status HTTP_401_UNAUTHORIZED.
Definition Forbidden {A} : result A → Prop := is_status HTTP_403_FORBIDDEN.
Definition NotFound {A} : result A → Prop := is_status HTTP_404_NOT_FOUND.

Definition is_ok {A} (r : result A) : Prop :=
  match r with
  | Ok _ => True
  | Raise _ => False
  end.

End Http.


(** ** [src/auth.py]: token validation and the admin gate *)

Module Auth.
Import Http.

Definition SECRET_KEY : string := "YOUR_SECRET_KEY".
Definition ALGORITHM : string := "HS256".

(** A user entry of [fake_users_db]: a dict with the keys ["username"],
    ["hashed_password"] and ["is_admin"]. *)
Record User : Type := mkUser {
  username : string;
  hashed_password : string;
  is_admin : bool
}.

(** The claims [jwt.decode] hands back.  The library itself rejects a
    token whose ["sub"] claim is present and not a string, so [sub] is
    either absent or a string. *)
Record Claims : Type := mkClaims {
  sub : option string;
  exp : option Z
}.

(** The ways [jwt.decode] fails.  [ExpiredSignatureError] and
    [JWTClaimsError] are subclasses of [JWTError]; a token that cannot be
    parsed or whose signature does not verify raises [JWTError] itself. *)
Inductive JWTError : Type :=
| MalformedToken
| SignatureMismatch
| ExpiredSignatureError
| JWTClaimsError.

Section Gate.

(** [jwt.decode(token, key, algorithms=...)], at the time of the call. *)
Variable jwt_decode : string → string → list string → JWTError + Claims.

(** The module-level user table, as it stands when a request arrives. *)
Variable fake_users_db : Py.dict string User.

Definition invalid_credentials : HTTPException :=
  mkHTTPException HTTP_401_UNAUTHORIZED "Invalid authentication credentials".

Definition not_enough_privileges : HTTPException :=
  mkHTTPException HTTP_403_FORBIDDEN "The user doesn't have enough privileges".

Definition get_current_user (token : string) : result User :=
  match jwt_decode token SECRET_KEY [ALGORITHM] with
  | inr payload =>
      let username := sub payload in
      match username with
      | None => Raise invalid_credentials
      | Some username =>
          match Py.get username fake_users_db with
          | None => Raise invalid_credentials
          | Some user => Ok user
          end
      end
  | inl _ => Raise invalid_credentials
  end.

Definition admin_required (user : User) : result User :=
  if negb (is_admin user) then Raise not_enough_privileges else Ok user.

(** [Depends(admin_required)]: the framework first resolves
    [get_current_user] from the bearer token, then runs [admin_required]
    on its result; an exception of either ends the request. *)
Definition Depends_admin_required (token : string) : result User :=
  match get_current_user token with
  | Raise e => Raise e
  | Ok user => admin_required user
  end.

(** A route declared with [dependencies=[Depends(admin_required)]]: the
    endpoint body runs only once the dependency has returned. *)
Definition route_with_admin {S A : Type}
    (endpoint : S → result A * S) (token : string) (store : S) : result A * S :=
  match Depends_admin_required token with
  | Raise e => (Raise e, store)
  | Ok _ => endpoint store
  end.

End Gate.

(** The user table as provisioned at import time; the stored hash is a
    salted bcrypt digest of ["admin"]. *)
Definition provisioned_users_db (admin_hash : string) : Py.dict string User :=
  Py.set "admin@example.com"
    (mkUser "admin@example.com" admin_hash true) Py.empty.

End Auth.

(** ** [src/flights]: schemas, the flight object and the endpoints *)

Module FlightCreate.
(** [FlightCreate(FlightBase)] *)
Record t : Type := mk {
  flight_id : string;
  destination : string;
  departure : string;
  flight_type : string;
  aircraft : string;
  seats : Z;
  flight_datetime : Py.datetime;
  state : option string
}.
End FlightCreate.

Module FlightUpdate.
Record t : Type := mk {
  flight_id : string;
  destination : option string;
  departure : option string;
  flight_type : option string;
  aircraft : option string;
  seats : option Z;
  flight_datetime : option Py.datetime
}.
End FlightUpdate.

Module SearchQuery.
(** The query parameters of [search_flights], all optional; [seats] has
    passed the framework's [ge=0] check by the time the function runs. *)
Record t : Type := mk {
  flight_id : option string;
  destination : option string;
  departure : option string;
  flight_type : option string;
  aircraft : option string;
  seats : option Z;
  flight_datetime : option Py.datetime
}.
End SearchQuery.

Module Flight.
Record t : Type := mk {
  flight_id : string;
  destination : string;
  departure : string;
  flight_type : string;
  aircraft : string;
  seats : Z;
  flight_datetime : Py.datetime;
  state : string
}.

Global Instance eq_dec : EqDecision t.
Proof. solve_decision. Defined.

(** [Flight.__init__] *)
Definition __init__ (flight_id destination departure flight_type aircraft : string)
    (seats : Z) (flight_datetime : Py.datetime) : t :=
  mk flight_id destination departure flight_type aircraft seats
     flight_datetime "reserved".

(** Attribute assignments [self.x = v]. *)
Definition set_destination (v : string) (self : t) : t :=
  mk (flight_id self) v (departure self) (flight_type self) (aircraft self)
     (seats self) (flight_datetime self) (state self).
Definition set_departure (v : string) (self : t) : t :=
  mk (flight_id self) (destination self) v (flight_type self) (aircraft self)
     (seats self) (flight_datetime self) (state self).
Definition set_flight_type (v : string) (self : t) : t :=
  mk (flight_id self) (destination self) (departure self) v (aircraft self)
     (seats self) (flight_datetime self) (state self).
Definition set_aircraft (v : string) (self : t) : t :=
  mk (flight_id self) (destination self) (departure self) (flight_type self) v
     (seats self) (flight_datetime self) (state self).
Definition set_seats (v : Z) (self : t) : t :=
  mk (flight_id self) (destination self) (departure self) (flight_type self)
     (aircraft self) v (flight_datetime self) (state self).
Definition set_flight_datetime (v : Py.datetime) (self : t) : t :=
  mk (flight_id self) (destination self) (departure self) (flight_type self)
     (aircraft self) (seats self) v (state self).
Definition set_state (v : string) (self : t) : t :=
  mk (flight_id self) (destination self) (departure self) (flight_type self)
     (aircraft self) (seats self) (flight_datetime self) v.

(** [to_dict]: a fresh dict with the eight attributes of the flight. *)
Definition to_dict (self : t) : t :=
  mk (flight_id self) (destination self) (departure self) (flight_type self)
     (aircraft self) (seats self) (flight_datetime self) (state self).

(** [if data.x: self.x = data.x] for the string fields (a truthiness
    test) and [if data.x is not None: self.x = data.x] for [seats] and
    [flight_datetime], one field after the other. *)
Definition update (data : FlightUpdate.t) (self : t) : t :=
  let self :=
    match FlightUpdate.destination data with
    | Some v => if Py.truthy_str (Some v) then set_destination v self else self
    | None => self
    end in
  let self :=
    match FlightUpdate.departure data with
    | Some v => if Py.truthy_str (Some v) then set_departure v self else self
    | None => self
    end in
  let self :=
    match FlightUpdate.flight_type data with
    | Some v => if Py.truthy_str (Some v) then set_flight_type v self else self
    | None => self
    end in
  let self :=
    match FlightUpdate.aircraft data with
    | Some v => if Py.truthy_str (Some v) then set_aircraft v self else self
    | None => self
    end in
  let self :=
    match FlightUpdate.seats data with
    | Some v => set_seats v self
    | None => self
    end in
  match FlightUpdate.flight_datetime data with
  | Some v => set_flight_datetime v self
  | None => self
  end.

(** [confirm] and [cancel] return their message and the object as the
    call leaves it. *)
Definition confirm (self : t) : string * t :=
  ("Vuelo confirmado.", set_state "confirmed" self).

Definition cancel (self : t) : string * t :=
  if decide (state self = "confirmed")
  then ("Cannot cancel a confirmed flight.", self)
  else ("Vuelo cancelado.", set_state "cancelled" self).

End Flight.

Module Flights.
Import Http.

(** [flights_db]: flight id to flight object. *)
Abbreviation flights_db_t := (Py.dict string Flight.t).

Definition flight_not_found : HTTPException :=
  mkHTTPException 404 "Vuelo no encontrado.".

(** [FlightFactory.create_flight]: the [state] of the request is not
    passed on. *)
Definition FlightFactory_create_flight (flight_data : FlightCreate.t) : Flight.t :=
  Flight.__init__
    (FlightCreate.flight_id flight_data)
    (FlightCreate.destination flight_data)
    (FlightCreate.departure flight_data)
    (FlightCreate.flight_type flight_data)
    (FlightCreate.aircraft flight_data)
    (FlightCreate.seats flight_data)
    (FlightCreate.flight_datetime flight_data).

Definition create_flight (request : FlightCreate.t) (flights_db : flights_db_t)
    : result string * flights_db_t :=
  if Py.contains (FlightCreate.flight_id request) flights_db
  then (Raise (mkHTTPException 400
                 ("Vuelo con Id " +:+ FlightCreate.flight_id request +:+ " ya existe.")),
        flights_db)
  else
    let flight := FlightFactory_create_flight request in
    (Ok ("Vuelo " +:+ FlightCreate.flight_id request +:+ " creado exitosamente."),
     Py.set (FlightCreate.flight_id request) flight flights_db).

(** The body of the search loop for one flight: [true] when one of the
    tests reaches its [continue].  The string filters are tested for
    truthiness and [seats] with [is not None]; a datetime object is always
    truthy, so the truthiness test of [flight_datetime] is the test for
    [None], and the comparison that follows is the [!=] of datetimes. *)
Definition search_skips (q : SearchQuery.t) (flight : Flight.t) : bool :=
  if Py.truthy_str (SearchQuery.flight_id q)
     && bool_decide (Some (Flight.flight_id flight) ≠ SearchQuery.flight_id q)
  then true
  else if Py.truthy_str (SearchQuery.destination q)
     && bool_decide (Some (Flight.destination flight) ≠ SearchQuery.destination q)
  then true
  else if Py.truthy_str (SearchQuery.departure q)
     && bool_decide (Some (Flight.departure flight) ≠ SearchQuery.departure q)
  then true
  else if Py.truthy_str (SearchQuery.flight_type q)
     && bool_decide (Some (Flight.flight_type flight) ≠ SearchQuery.flight_type q)
  then true
  else if Py.truthy_str (SearchQuery.aircraft q)
     && bool_decide (Some (Flight.aircraft flight) ≠ SearchQuery.aircraft q)
  then true
  else if Py.is_not_None (SearchQuery.seats q)
     && bool_decide (Some (Flight.seats flight) ≠ SearchQuery.seats q)
  then true
  else if Py.is_not_None (SearchQuery.flight_datetime q)
     && match SearchQuery.flight_datetime q with
        | Some v => Py.datetime_ne (Flight.flight_datetime flight) v
        | None => false
        end
  then true
  else false.

(** [for flight in flights_db.values(): ... results.append(flight.to_dict())] *)
Fixpoint search_loop (q : SearchQuery.t) (flights : list Flight.t)
    (results : list Flight.t) : list Flight.t :=
  match flights with
  | [] => results
  | flight :: rest =>
      if search_skips q flight
      then search_loop q rest results
      else search_loop q rest (results ++ [Flight.to_dict flight])
  end.

Definition search_flights (q : SearchQuery.t) (flights_db : flights_db_t)
    : result (list Flight.t) :=
  let results := search_loop q (Py.values flights_db) [] in
  match results with
  | [] => Raise flight_not_found
  | _ :: _ => Ok results
  end.

Definition update_flight (request : FlightUpdate.t) (flights_db : flights_db_t)
    : result string * flights_db_t :=
  match Py.get (FlightUpdate.flight_id request) flights_db with
  | None => (Raise flight_not_found, flights_db)
  | Some _ =>
      (Ok ("Vuelo " +:+ FlightUpdate.flight_id request +:+ " actualizado exitosamente."),
       Py.mutate (Flight.update request) (FlightUpdate.flight_id request) flights_db)
  end.

Definition list_flights (flights_db : flights_db_t) : list Flight.t :=
  Flight.to_dict <$> Py.values flights_db.

Definition confirm_flight (flight_id : string) (flights_db : flights_db_t)
    : result string * flights_db_t :=
  match Py.get flight_id flights_db with
  | None => (Raise flight_not_found, flights_db)
  | Some flight =>
      (Ok (fst (Flight.confirm flight)),
       Py.mutate (λ self, snd (Flight.confirm self)) flight_id flights_db)
  end.

Definition cancel_flight (flight_id : string) (flights_db : flights_db_t)
    : result string * flights_db_t :=
  match Py.get flight_id flights_db with
  | None => (Raise flight_not_found, flights_db)
  | Some flight =>
      (Ok (fst (Flight.cancel flight)),
       Py.mutate (λ self, snd (Flight.cancel self)) flight_id flights_db)
  end.

End Flights.

(** ** [src/bookings/router.py]: reservations *)

Module Bookings.
Import Http.

(** The [Reservation] model.  [status] is declared [str] with default
    ["reserved"]; [passenger_email] has passed the e-mail validation of
    the schema layer by the time an object exists. *)
Record Reservation : Type := mkReservation {
  id : Z;
  passenger_email : string;
  flight_id : string;
  seat_number : option string;
  status : string
}.

Global Instance Reservation_eq_dec : EqDecision Reservation.
Proof. solve_decision. Defined.

(** Building a [Reservation] from a request body: a field left out of
    the body takes its declared default. *)
Definition Reservation_of_body (id : Z) (passenger_email flight_id : string)
    (seat_number status : option string) : Reservation :=
  mkReservation id passenger_email flight_id seat_number
    (default "reserved" status).

(** [reservation.status = v] *)
Definition set_status (v : string) (reservation : Reservation) : Reservation :=
  mkReservation (id reservation) (passenger_email reservation)
    (flight_id reservation) (seat_number reservation) v.

(** [ReservationRepository]: its [reservations] dict. *)
Abbreviation repository_t := (Py.dict Z Reservation).

Definition ReservationRepository__init__ : repository_t := Py.empty.

Definition reservation_exists : HTTPException :=
  mkHTTPException 400 "Reservación ya existente.".
Definition reservation_not_found : HTTPException :=
  mkHTTPException 404 "Reservación no encontrada.".

Definition add_reservation (reservation : Reservation) (reservations : repository_t)
    : result unit * repository_t :=
  if Py.contains (id reservation) reservations
  then (Raise reservation_exists, reservations)
  else (Ok tt, Py.set (id reservation) reservation reservations).

Definition get_reservation (reservation_id : Z) (reservations : repository_t)
    : option Reservation :=
  Py.get reservation_id reservations.

Definition update_reservation (reservation : Reservation) (reservations : repository_t)
    : result unit * repository_t :=
  if negb (Py.contains (id reservation) reservations)
  then (Raise reservation_not_found, reservations)
  else (Ok tt, Py.set (id reservation) reservation reservations).

Definition list_all (reservations : repository_t) : list Reservation :=
  Py.values reservations.

(** [BookingManager], a facade over the repository it was built with. *)
Definition BookingManager_create_reservation := add_reservation.
Definition BookingManager_update_reservation := update_reservation.

(** A model instance is always truthy, so [if reservation:] tests for
    [None].  [reservation.status = "cancelled"] writes to the object the
    repository holds under [reservation_id]; [update_reservation] then
    stores that same object under its own [id]. *)
Definition BookingManager_cancel_reservation (reservation_id : Z)
    (reservations : repository_t) : result unit * repository_t :=
  match get_reservation reservation_id reservations with
  | Some reservation =>
      let reservation := set_status "cancelled" reservation in
      let reservations :=
        Py.mutate (set_status "cancelled") reservation_id reservations in
      update_reservation reservation reservations
  | None => (Raise reservation_not_found, reservations)
  end.

Definition BookingManager_list_all_reservations := list_all.

(** The endpoints. *)
Definition create_reservation (reservation : Reservation) (reservations : repository_t)
    : result Reservation * repository_t :=
  match BookingManager_create_reservation reservation reservations with
  | (Raise e, reservations) => (Raise e, reservations)
  | (Ok _, reservations) => (Ok reservation, reservations)
  end.

Definition cancel_reservation (reservation_id : Z) (reservations : repository_t)
    : result string * repository_t :=
  match BookingManager_cancel_reservation reservation_id reservations with
  | (Raise e, reservations) => (Raise e, reservations)
  | (Ok _, reservations) => (Ok "Reservación cancelada.", reservations)
  end.

Definition list_reservations (reservations : repository_t) : list Reservation :=
  BookingManager_list_all_reservations reservations.

(** Repository states reachable from the empty repository through the
    manager's operations, where every object handed to [create] or
    [update] satisfies [accepted]. *)
Inductive reachable (accepted : Reservation → Prop) : repository_t → Prop :=
| reach_init : reachable accepted ReservationRepository__init__
| reach_create reservation reservations :
    reachable accepted reservations →
    accepted reservation →
    reachable accepted (snd (BookingManager_create_reservation reservation reservations))
| reach_update reservation reservations :
    reachable accepted reservations →
    accepted reservation →
    reachable accepted (snd (BookingManager_update_reservation reservation reservations))
| reach_cancel reservation_id reservations :
    reachable accepted reservations →
    reachable accepted (snd (BookingManager_cancel_reservation reservation_id reservations)).

(** Every key of the repository is the [id] of the object it holds. *)
Definition keyed_by_id (reservations : repository_t) : Prop :=
  Forall (λ kv, id (snd kv) = fst kv) reservations.

End Bookings.

(** ** The flight routes behind the admin gate *)

Module FlightRoutes.
Import Http Flights.

(** The six routes of the flights router; each one is declared with
    [dependencies=[Depends(admin_required)]]. *)
Inductive request : Type :=
| PostCreate (body : FlightCreate.t)
| GetSearch (query : SearchQuery.t)
| PutUpdate (body : FlightUpdate.t)
| GetAll
| PostConfirm (flight_id : string)
| PostCancel (flight_id : string).

Inductive response : Type :=
| Message (text : string)
| FlightsFound (flights : list Flight.t)
| FlightList (flights : list Flight.t).

Definition lift {A B : Type} (f : A → B) (r : result A) : result B :=
  match r with
  | Ok a => Ok (f a)
  | Raise e => Raise e
  end.

(** The endpoint function a route runs. *)
Definition endpoint (req : request) (flights_db : flights_db_t)
    : result response * flights_db_t :=
  match req with
  | PostCreate body =>
      let '(r, db) := create_flight body flights_db in (lift Message r, db)
  | GetSearch query => (lift FlightsFound (search_flights query flights_db), flights_db)
  | PutUpdate body =>
      let '(r, db) := update_flight body flights_db in (lift Message r, db)
  | GetAll => (Ok (FlightList (list_flights flights_db)), flights_db)
  | PostConfirm flight_id =>
      let '(r, db) := confirm_flight flight_id flights_db in (lift Message r, db)
  | PostCancel flight_id =>
      let '(r, db) := cancel_flight flight_id flights_db in (lift Message r, db)
  end.

Section Routes.
Variable jwt_decode : string → string → list string → Auth.JWTError + Auth.Claims.
Variable fake_users_db : Py.dict string Auth.User.

Definition route (req : request) (token : string) (flights_db : flights_db_t)
    : result response * flights_db_t :=
  Auth.route_with_admin jwt_decode fake_users_db (endpoint req) token flights_db.

End Routes.
End FlightRoutes.

(** ** [src/auth.py] and [src/users/router.py]: credentials and issuance *)

Module Login.
Import Http Auth.

Definition ACCESS_TOKEN_EXPIRE_MINUTES : Z := 30.

(** A [timedelta], by its length in microseconds; the zero duration is
    the only falsy one. *)
Definition timedelta : Type := Z.
Definition timedelta_minutes (minutes : Z) : timedelta := minutes * 60000000.

(** The values the claims dict handed to [jwt.encode] holds here: the
    subject string and the expiry datetime. *)
Inductive claim : Type :=
| ClaimStr (s : string)
| ClaimTime (t : Py.datetime).

(** The credentials form of the token route. *)
Record OAuth2PasswordRequestForm : Type := mkForm {
  form_username : string;
  form_password : string
}.

(** The body the token route answers with. *)
Record TokenResponse : Type := mkTokenResponse {
  access_token : string;
  token_type : string
}.

(** The subject a claims dict carries, if it carries one. *)
Definition subject_of (payload : Py.dict string claim) : option string :=
  match Py.get "sub" payload with
  | Some (ClaimStr s) => Some s
  | _ => None
  end.

(** A call either returns a value or ends in an exception that nothing in
    this code catches. *)
Inductive outcome (A : Type) : Type :=
| Returned (a : A)
| Unhandled.
Global Arguments Returned {A} a.
Global Arguments Unhandled {A}.

(** The instants a [datetime] can hold: from [datetime.min],
    0001-01-01T00:00:00, to [datetime.max], 9999-12-31T23:59:59.999999, as
    wall-clock readings in microseconds around the epoch. *)
Definition datetime_min : Py.wall_clock := -62135596800000000.
Definition datetime_max : Py.wall_clock := 253402300799999999.
Definition datetime_representable (t : Py.wall_clock) : Prop :=
  (datetime_min ≤ t ≤ datetime_max)%Z.

Section Issuance.

(** [pwd_context.verify(plain_password, hashed_password)]: whether the
    password matches the hash, or [None] when the library raises instead
    of answering (as it does for a password it refuses to hash, one with a
    NUL byte for instance). *)
Variable pwd_verify : string → string → option bool.

(** [jwt.encode(claims, key, algorithm=...)] *)
Variable jwt_encode : Py.dict string claim → string → string → string.

Variable fake_users_db : Py.dict string User.

(** [verify_password] has no handler: it returns what the library
    returns and raises what the library raises. *)
Definition verify_password (plain_password hashed_password : string) : outcome bool :=
  match pwd_verify plain_password hashed_password with
  | Some matches => Returned matches
  | None => Unhandled
  end.

(** [authenticate_user] returns [False] or the user entry; [None] stands
    for [False].  A user entry is a non-empty dict, hence truthy.  For an
    unknown username [not user] decides the [or] and [verify_password] is
    not called. *)
Definition authenticate_user (username password : string) : outcome (option User) :=
  match Py.get username fake_users_db with
  | None => Returned None
  | Some user =>
      match verify_password password (hashed_password user) with
      | Unhandled => Unhandled
      | Returned matches => if negb matches then Returned None else Returned (Some user)
      end
  end.

(** [expires_delta or timedelta(minutes=ACCESS_TOKEN_EXPIRE_MINUTES)] *)
Definition effective_delta (expires_delta : option timedelta) : timedelta :=
  match expires_delta with
  | None => timedelta_minutes ACCESS_TOKEN_EXPIRE_MINUTES
  | Some delta =>
      if decide (delta = 0)
      then timedelta_minutes ACCESS_TOKEN_EXPIRE_MINUTES
      else delta
  end.

(** The claims [create_access_token] hands to the encoder: a copy of
    [data] with ["exp"] set.  [utcnow] is the wall-clock reading of the
    naive datetime [datetime.utcnow()] returns during the call, and the
    expiry is a naive datetime again.  Adding the duration raises
    [OverflowError] when the sum leaves the range of [datetime]; the
    definition gives the sum, and what is proved of it is stated for sums
    that are [datetime_representable]. *)
Definition access_token_claims (utcnow : Py.wall_clock) (data : Py.dict string claim)
    (expires_delta : option timedelta) : Py.dict string claim :=
  let to_encode := data in
  let expire := Py.naive (utcnow + effective_delta expires_delta) in
  Py.set "exp" (ClaimTime expire) to_encode.

Definition create_access_token (utcnow : Py.wall_clock) (data : Py.dict string claim)
    (expires_delta : option timedelta) : string :=
  jwt_encode (access_token_claims utcnow data expires_delta) SECRET_KEY ALGORITHM.

Definition incorrect_credentials : HTTPException :=
  mkHTTPException 401 "Incorrect username or password".

(** [login_for_access_token] of the users router: it either returns the
    token body, raises the 401, or lets the exception of
    [authenticate_user] through. *)
Definition login_for_access_token (utcnow : Py.wall_clock)
    (form_data : OAuth2PasswordRequestForm) : outcome (result TokenResponse) :=
  match authenticate_user (form_username form_data) (form_password form_data) with
  | Unhandled => Unhandled
  | Returned None => Returned (Raise incorrect_credentials)
  | Returned (Some user) =>
      let access_token :=
        create_access_token utcnow [("sub", ClaimStr (username user))] None in
      Returned (Ok (mkTokenResponse access_token "bearer"))
  end.

End Issuance.

(** Every key of the user table is the ["username"] of its entry. *)
Definition keyed_by_username (users : Py.dict string User) : Prop :=
  Forall (λ kv, username (snd kv) = fst kv) users.

End Login.

(** ** Histories of the flight store *)

Module FlightStore.
Import Http Flights.

(** The store after a sequence of requests has reached the endpoints,
    oldest first. *)
Definition run (requests : list FlightRoutes.request) (flights_db : flights_db_t)
    : flights_db_t :=
  foldl (λ db req, snd (FlightRoutes.endpoint req db)) flights_db requests.

(** The stores the endpoints can produce from the empty one. *)
Inductive reachable : flights_db_t → Prop :=
| reach_empty : reachable Py.empty
| reach_request req flights_db :
    reachable flights_db →
    reachable (snd (FlightRoutes.endpoint req flights_db)).

Definition keyed_by_flight_id (flights_db : flights_db_t) : Prop :=
  Forall (λ kv, Flight.flight_id (snd kv) = fst kv) flights_db.

Definition state_in_enum (flight : Flight.t) : Prop :=
  Flight.state flight = "reserved"
  ∨ Flight.state flight = "confirmed"
  ∨ Flight.state flight = "cancelled".

(** What the store keeps true of each entry. *)
Definition entry_ok (kv : string * Flight.t) : Prop :=
  Flight.flight_id (snd kv) = fst kv ∧ state_in_enum (snd kv).

(** A payload none of whose fields passes its test in [Flight.update]. *)
Definition ineffective_payload (data : FlightUpdate.t) : bool :=
  negb (Py.truthy_str (FlightUpdate.destination data)
        || Py.truthy_str (FlightUpdate.departure data)
        || Py.truthy_str (FlightUpdate.flight_type data)
        || Py.truthy_str (FlightUpdate.aircraft data)
        || Py.is_not_None (FlightUpdate.seats data)
        || Py.is_not_None (FlightUpdate.flight_datetime data)).

(** A query none of whose filters passes its test in [search_flights]. *)
Definition ineffective_query (q : SearchQuery.t) : bool :=
  negb (Py.truthy_str (SearchQuery.flight_id q)
        || Py.truthy_str (SearchQuery.destination q)
        || Py.truthy_str (SearchQuery.departure q)
        || Py.truthy_str (SearchQuery.flight_type q)
        || Py.truthy_str (SearchQuery.aircraft q)
        || Py.is_not_None (SearchQuery.seats q)
        || Py.is_not_None (SearchQuery.flight_datetime q)).

End FlightStore.

(** ** Sample data and the statements of the specification *)

Module Stated.
Import Http Flights.

(** A small store used by the examples: F1 reserved, F2 confirmed. *)
Definition F1 : Flight.t :=
  Flight.mk "F1" "MAD" "BOG" "commercial" "A320" 180 (Py.naive 1700000000000000) "reserved".
Definition F2 : Flight.t :=
  Flight.mk "F2" "LIM" "BOG" "charter" "B737" 0 (Py.aware 1700003600000000 (-18000000000)) "confirmed".
Definition sample_db : flights_db_t := [("F1", F1); ("F2", F2)].


(** *** Partial update *)

(** The update rule in the words of the specification: a field of the
    payload overwrites the stored one exactly when it is non-null. *)
Definition overwrite_if_present {A} (payload : option A) (stored : A) : A :=
  match payload with
  | Some v => v
  | None => stored
  end.

Definition update_by_presence (data : FlightUpdate.t) (flight : Flight.t) : Flight.t :=
  Flight.mk (Flight.flight_id flight)
    (overwrite_if_present (FlightUpdate.destination data) (Flight.destination flight))
    (overwrite_if_present (FlightUpdate.departure data) (Flight.departure flight))
    (overwrite_if_present (FlightUpdate.flight_type data) (Flight.flight_type flight))
    (overwrite_if_present (FlightUpdate.aircraft data) (Flight.aircraft flight))
    (overwrite_if_present (FlightUpdate.seats data) (Flight.seats flight))
    (overwrite_if_present (FlightUpdate.flight_datetime data) (Flight.flight_datetime flight))
    (Flight.state flight).

Definition update_overwrites_non_null : Prop :=
  ∀ (request : FlightUpdate.t) (flights_db : flights_db_t),
    match Py.get (FlightUpdate.flight_id request) flights_db with
    | None => NotFound (fst (update_flight request flights_db))
    | Some flight =>
        Py.get (FlightUpdate.flight_id request) (snd (update_flight request flights_db))
        = Some (update_by_presence request flight)
    end.

(** What the string fields do instead: a payload string overwrites the
    stored one when it is non-null and not the empty string. *)
Definition overwrite_if_nonempty (payload : option string) (stored : string) : string :=
  match payload with
  | Some v => if decide (v = "") then stored else v
  | None => stored
  end.

Definition update_by_content (data : FlightUpdate.t) (flight : Flight.t) : Flight.t :=
  Flight.mk (Flight.flight_id flight)
    (overwrite_if_nonempty (FlightUpdate.destination data) (Flight.destination flight))
    (overwrite_if_nonempty (FlightUpdate.departure data) (Flight.departure flight))
    (overwrite_if_nonempty (FlightUpdate.flight_type data) (Flight.flight_type flight))
    (overwrite_if_nonempty (FlightUpdate.aircraft data) (Flight.aircraft flight))
    (overwrite_if_present (FlightUpdate.seats data) (Flight.seats flight))
    (overwrite_if_present (FlightUpdate.flight_datetime data) (Flight.flight_datetime flight))
    (Flight.state flight).

(** *** Search *)

(** A supplied filter holds of a flight when the field equals it. *)
Definition filter_holds {A} (filter : option A) (actual : A) : Prop :=
  ∀ v, filter = Some v → actual = v.

(** A supplied string filter that is not the empty string. *)
Definition nonempty_filter_holds (filter : option string) (actual : string) : Prop :=
  ∀ v, filter = Some v → v ≠ "" → actual = v.

Global Instance filter_holds_dec {A} `{EqDecision A} (filter : option A) (actual : A) :
  Decision (filter_holds filter actual).
Proof.
  destruct filter as [v|].
  - destruct (decide (actual = v)) as [Heq|Hne].
    + left. intros v' [= <-]. exact Heq.
    + right. intros Hall. exact (Hne (Hall v eq_refl)).
  - left. intros v' [=].
Defined.

Global Instance nonempty_filter_holds_dec (filter : option string) (actual : string) :
  Decision (nonempty_filter_holds filter actual).
Proof.
  destruct filter as [v|].
  - destruct (decide (v = "")) as [Hempty|Hnonempty].
    + left. intros v' [= <-] Hv. destruct (Hv Hempty).
    + destruct (decide (actual = v)) as [Heq|Hne].
      * left. intros v' [= <-] _. exact Heq.
      * right. intros Hall. exact (Hne (Hall v eq_refl Hnonempty)).
  - left. intros v' [=].
Defined.

(** A supplied datetime filter holds of a flight when the flight's
    datetime is [==] to it. *)
Definition datetime_filter_holds (filter : option Py.datetime) (actual : Py.datetime) : Prop :=
  ∀ v, filter = Some v → Py.datetime_eq actual v = true.

Global Instance datetime_filter_holds_dec (filter : option Py.datetime)
    (actual : Py.datetime) : Decision (datetime_filter_holds filter actual).
Proof.
  destruct filter as [v|].
  - destruct (Py.datetime_eq actual v) eqn:Heq.
    + left. intros v' [= <-]. exact Heq.
    + right. intros Hall. specialize (Hall v eq_refl). congruence.
  - left. intros v' [=].
Defined.

(** The specification's reading: every supplied filter is tested. *)
Definition matches_every_filter (q : SearchQuery.t) (flight : Flight.t) : Prop :=
  filter_holds (SearchQuery.flight_id q) (Flight.flight_id flight)
  ∧ filter_holds (SearchQuery.destination q) (Flight.destination flight)
  ∧ filter_holds (SearchQuery.departure q) (Flight.departure flight)
  ∧ filter_holds (SearchQuery.flight_type q) (Flight.flight_type flight)
  ∧ filter_holds (SearchQuery.aircraft q) (Flight.aircraft flight)
  ∧ filter_holds (SearchQuery.seats q) (Flight.seats flight)
  ∧ datetime_filter_holds (SearchQuery.flight_datetime q) (Flight.flight_datetime flight).

Definition search_returns_exact_matches : Prop :=
  ∀ (q : SearchQuery.t) (flights_db : flights_db_t),
    match search_flights q flights_db with
    | Ok results =>
        results ≠ []
        ∧ ∀ d, d ∈ results ↔
            ∃ flight, flight ∈ Py.values flights_db
                      ∧ matches_every_filter q flight ∧ d = Flight.to_dict flight
    | Raise e =>
        status_code e = HTTP_404_NOT_FOUND
        ∧ ∀ flight, flight ∈ Py.values flights_db → ¬ matches_every_filter q flight
    end.

(** The filters the search tests: string filters that are non-null and
    non-empty, and the [seats] and [flight_datetime] filters when non-null,
    the latter by the [==] of datetimes. *)
Definition matches_effective_filters (q : SearchQuery.t) (flight : Flight.t) : Prop :=
  nonempty_filter_holds (SearchQuery.flight_id q) (Flight.flight_id flight)
  ∧ nonempty_filter_holds (SearchQuery.destination q) (Flight.destination flight)
  ∧ nonempty_filter_holds (SearchQuery.departure q) (Flight.departure flight)
  ∧ nonempty_filter_holds (SearchQuery.flight_type q) (Flight.flight_type flight)
  ∧ nonempty_filter_holds (SearchQuery.aircraft q) (Flight.aircraft flight)
  ∧ filter_holds (SearchQuery.seats q) (Flight.seats flight)
  ∧ datetime_filter_holds (SearchQuery.flight_datetime q) (Flight.flight_datetime flight).

Global Instance matches_effective_filters_dec q flight :
  Decision (matches_effective_filters q flight).
Proof. unfold matches_effective_filters. apply _. Defined.

(** *** Token validation *)

Section Tokens.
Variable jwt_decode : string → string → list string → Auth.JWTError + Auth.Claims.
Variable fake_users_db : Py.dict string Auth.User.

(** A token resolves to a principal when it decodes (well formed,
    signature verified, not expired) and its subject is a key of the user
    table, the principal being the entry under that key. *)
Definition resolves_to (token : string) (user : Auth.User) : Prop :=
  ∃ payload username,
    jwt_decode token Auth.SECRET_KEY [Auth.ALGORITHM] = inr payload
    ∧ Auth.sub payload = Some username
    ∧ Py.get username fake_users_db = Some user.

End Tokens.

(** *** Reservation status *)

Definition status_in_enum (reservation : Bookings.Reservation) : Prop :=
  Bookings.status reservation = "reserved" ∨ Bookings.status reservation = "cancelled".

(** The specification's reading of the [status] field: whatever [create]
    accepts starts as ["reserved"], and every stored status is one of the
    two enum values, whatever the requests were. *)
Definition reservation_status_is_enum : Prop :=
  (∀ reservation reservations,
     is_ok (fst (Bookings.create_reservation reservation reservations)) →
     Bookings.status reservation = "reserved")
  ∧ (∀ reservations,
       Bookings.reachable (λ _, True) reservations →
       ∀ reservation, reservation ∈ Bookings.list_all reservations →
                      status_in_enum reservation).

(** A repository used by the examples. *)
Definition R1 : Bookings.Reservation :=
  Bookings.Reservation_of_body 1 "a@b.com" "F1" None None.
Definition R42 : Bookings.Reservation :=
  Bookings.Reservation_of_body 42 "c@d.org" "F2" (Some "12A") (Some "reserved").
Definition sample_repository : Bookings.repository_t := [(1, R1); (42, R42)].

End Stated.

(** * Properties *)

(** ** Facts about insertion-ordered dicts *)

Module PyFacts.
Import Py.

Section Dict.
Context {K V : Type} `{EqDecision K}.
Implicit Types (k : K) (v : V) (d : dict K V).

Lemma get_None_keys k d : get k d = None ↔ k ∉ keys d.
Proof.
  induction d as [|[k' v'] d IH]; simpl.
  - split; [intros _; apply not_elem_of_nil | done].
  - rewrite not_elem_of_cons. case_decide as Hk; subst.
    + split; [discriminate | intros [Hne _]; congruence].
    + rewrite IH. split; [intros Hd; split; [congruence | done] | tauto].
Qed.

Lemma get_Some_elem_of k v d : get k d = Some v → (k, v) ∈ d.
Proof.
  induction d as [|[k' v'] d IH]; simpl; [discriminate|].
  case_decide; subst.
  - intros [= ->]. apply list_elem_of_here.
  - intros Hg. apply list_elem_of_further, IH, Hg.
Qed.

Lemma get_set_eq k v d : get k (set k v d) = Some v.
Proof.
  induction d as [|[k' v'] d IH]; simpl.
  - by rewrite decide_True.
  - case_decide as Hk; simpl; [by rewrite decide_True | by rewrite decide_False].
Qed.

Lemma get_set_ne k k' v d : k ≠ k' → get k' (set k v d) = get k' d.
Proof.
  intros Hne. induction d as [|[k0 v0] d IH]; simpl.
  - by rewrite decide_False.
  - case_decide as Hk; simpl; subst.
    + by rewrite !decide_False.
    + case_decide; [done | apply IH].
Qed.

Lemma set_absent k v d : get k d = None → set k v d = d ++ [(k, v)].
Proof.
  induction d as [|[k' v'] d IH]; simpl; [done|].
  case_decide; [discriminate|]. intros Hg. by rewrite IH.
Qed.

Lemma set_present k v d :
  is_Some (get k d) → set k v d = mutate (λ _, v) k d.
Proof.
  induction d as [|[k' v'] d IH]; simpl; intros Hs.
  - by destruct Hs.
  - case_decide; [done|]. by rewrite IH.
Qed.

Lemma get_mutate_eq f k d : get k (mutate f k d) = f <$> get k d.
Proof.
  induction d as [|[k' v'] d IH]; simpl; [done|].
  case_decide; simpl; [by rewrite decide_True | by rewrite decide_False].
Qed.

Lemma get_mutate_ne f k k' d : k ≠ k' → get k' (mutate f k d) = get k' d.
Proof.
  intros Hne. induction d as [|[k0 v0] d IH]; simpl; [done|].
  case_decide as Hk; simpl; subst.
  - by rewrite !decide_False.
  - case_decide; [done | apply IH].
Qed.

Lemma keys_mutate f k d : keys (mutate f k d) = keys d.
Proof.
  unfold keys. induction d as [|[k' v'] d IH]; simpl; [done|].
  case_decide; simpl; [done | by f_equal].
Qed.

Lemma mutate_fixed f k d :
  (∀ v, get k d = Some v → f v = v) → mutate f k d = d.
Proof.
  induction d as [|[k' v'] d IH]; simpl; [done|].
  case_decide; intros Hf; [by rewrite Hf | by rewrite IH].
Qed.

Lemma mutate_ext f g k d :
  (∀ v, get k d = Some v → f v = g v) → mutate f k d = mutate g k d.
Proof.
  induction d as [|[k' v'] d IH]; simpl; [done|].
  case_decide; intros Hfg; [by rewrite Hfg | by rewrite IH].
Qed.

Lemma mutate_mutate f g k d :
  mutate f k (mutate g k d) = mutate (f ∘ g) k d.
Proof.
  induction d as [|[k' v'] d IH]; simpl; [done|].
  case_decide; simpl; [by rewrite decide_True | by rewrite decide_False, IH].
Qed.

(** With unique keys, mutating under [k] touches exactly the entries
    whose key is [k]. *)
Lemma mutate_unique f k d :
  unique_keys d →
  mutate f k d = (λ kv, if decide (fst kv = k) then (fst kv, f (snd kv)) else kv) <$> d.
Proof.
  unfold unique_keys, keys.
  induction d as [|[k' v'] d IH]; simpl; [done|].
  intros [Hk' Hnd]%NoDup_cons. case_decide; subst; [|by rewrite IH].
  f_equal. clear IH. induction d as [|[k0 v0] d IH]; simpl; [done|].
  simpl in Hk', Hnd. apply not_elem_of_cons in Hk' as [Hne Hk'].
  apply NoDup_cons in Hnd as [_ Hnd].
  rewrite decide_False by done. by rewrite <- IH.
Qed.

Lemma unique_keys_empty : unique_keys (@empty K V).
Proof. apply NoDup_nil_2. Qed.

Lemma unique_keys_mutate f k d : unique_keys d → unique_keys (mutate f k d).
Proof. unfold unique_keys. by rewrite keys_mutate. Qed.

Lemma unique_keys_set k v d : unique_keys d → unique_keys (set k v d).
Proof.
  intros Hu. destruct (get k d) eqn:Hg.
  - rewrite set_present by eauto. by apply unique_keys_mutate.
  - rewrite set_absent by done. unfold unique_keys, keys in *.
    rewrite fmap_app. simpl. apply NoDup_app. split; [done|]. split.
    + intros k' Hin ->%list_elem_of_singleton. by apply get_None_keys in Hg.
    + apply NoDup_singleton.
Qed.

End Dict.
End PyFacts.

(** ** Flights: creation and the state transitions *)

Module FlightsSpec.
Import Http Flights Stated.

Lemma to_dict_id (flight : Flight.t) : Flight.to_dict flight = flight.
Proof. by destruct flight. Qed.

Example cancel_reserved_example :
  cancel_flight "F1" sample_db
  = (Ok "Vuelo cancelado.",
     [("F1", Flight.mk "F1" "MAD" "BOG" "commercial" "A320" 180
               (Py.naive 1700000000000000) "cancelled");
      ("F2", F2)]).
Proof. reflexivity. Qed.

Example cancel_confirmed_example :
  cancel_flight "F2" sample_db = (Ok "Cannot cancel a confirmed flight.", sample_db).
Proof. reflexivity. Qed.

Example cancel_absent_example :
  cancel_flight "F9" sample_db = (Raise flight_not_found, sample_db).
Proof. reflexivity. Qed.

(** C1. [cancel] on an absent flight id fails with NotFound and leaves the
    store alone; on a stored flight whose state is ["confirmed"] it returns
    the non-error refusal message and the store is unchanged, so the state
    stays ["confirmed"]; on a stored flight in any other state it returns
    the cancellation message, the stored flight then has state
    ["cancelled"] and its seven other attributes as before, and every other
    flight stays as it was. *)
Theorem cancel_flight_spec (flight_id : string) (flights_db : flights_db_t) :
  match Py.get flight_id flights_db with
  | None =>
      NotFound (fst (cancel_flight flight_id flights_db))
      ∧ snd (cancel_flight flight_id flights_db) = flights_db
  | Some flight =>
      if decide (Flight.state flight = "confirmed")
      then cancel_flight flight_id flights_db
           = (Ok "Cannot cancel a confirmed flight.", flights_db)
      else fst (cancel_flight flight_id flights_db) = Ok "Vuelo cancelado."
           ∧ Py.get flight_id (snd (cancel_flight flight_id flights_db))
             = Some (Flight.mk (Flight.flight_id flight) (Flight.destination flight)
                       (Flight.departure flight) (Flight.flight_type flight)
                       (Flight.aircraft flight) (Flight.seats flight)
                       (Flight.flight_datetime flight) "cancelled")
           ∧ ∀ other, other ≠ flight_id →
               Py.get other (snd (cancel_flight flight_id flights_db))
               = Py.get other flights_db
  end.
Proof.
  unfold cancel_flight. destruct (Py.get flight_id flights_db) as [flight|] eqn:Hget.
  - unfold Flight.cancel. case_decide as Hstate; simpl.
    + f_equal. apply PyFacts.mutate_fixed. intros v Hv.
      rewrite Hget in Hv. injection Hv as <-. by rewrite decide_True.
    + split; [done|]. split.
      * rewrite PyFacts.get_mutate_eq, Hget. simpl. by rewrite decide_False.
      * intros other Hne. by apply PyFacts.get_mutate_ne.
  - simpl. split; [reflexivity | done].
Qed.

(** C7. [confirm] on an absent flight id fails with NotFound; on a stored
    flight it answers with the confirmation message and the stored flight
    then has state ["confirmed"], whatever the state was (["reserved"],
    ["confirmed"] or ["cancelled"]), and its seven other attributes as
    before; every other flight is left alone, and confirming a second time
    changes nothing more. *)
Theorem confirm_flight_spec (flight_id : string) (flights_db : flights_db_t) :
  match Py.get flight_id flights_db with
  | None =>
      NotFound (fst (confirm_flight flight_id flights_db))
      ∧ snd (confirm_flight flight_id flights_db) = flights_db
  | Some flight =>
      fst (confirm_flight flight_id flights_db) = Ok "Vuelo confirmado."
      ∧ Py.get flight_id (snd (confirm_flight flight_id flights_db))
        = Some (Flight.mk (Flight.flight_id flight) (Flight.destination flight)
                  (Flight.departure flight) (Flight.flight_type flight)
                  (Flight.aircraft flight) (Flight.seats flight)
                  (Flight.flight_datetime flight) "confirmed")
      ∧ (∀ other, other ≠ flight_id →
           Py.get other (snd (confirm_flight flight_id flights_db))
           = Py.get other flights_db)
      ∧ confirm_flight flight_id (snd (confirm_flight flight_id flights_db))
        = confirm_flight flight_id flights_db
  end.
Proof.
  destruct (Py.get flight_id flights_db) as [flight|] eqn:Hget.
  - assert (Hc : confirm_flight flight_id flights_db
                 = (Ok "Vuelo confirmado.",
                    Py.mutate (Flight.set_state "confirmed") flight_id flights_db)).
    { unfold confirm_flight. by rewrite Hget. }
    rewrite Hc. simpl. split; [done|].
    split; [by rewrite PyFacts.get_mutate_eq, Hget|].
    split; [intros other Hne; by apply PyFacts.get_mutate_ne|].
    unfold confirm_flight. rewrite PyFacts.get_mutate_eq, Hget. simpl.
    f_equal. rewrite PyFacts.mutate_mutate. by apply PyFacts.mutate_ext.
  - unfold confirm_flight. rewrite Hget. split; [reflexivity | done].
Qed.

Example confirm_cancelled_example :
  snd (confirm_flight "F1" (snd (cancel_flight "F1" sample_db)))
  = [("F1", Flight.mk "F1" "MAD" "BOG" "commercial" "A320" 180
              (Py.naive 1700000000000000) "confirmed");
     ("F2", F2)].
Proof. reflexivity. Qed.

(** C6. [create] with a flight id already in the store fails with Conflict
    (status 400) and returns the store as it was, so the existing record is
    unchanged; with a fresh id it succeeds, appends one record built from
    the request with state ["reserved"] (whatever [state] the request
    carried) and changes no other entry. *)
Theorem create_flight_spec (request : FlightCreate.t) (flights_db : flights_db_t) :
  match Py.get (FlightCreate.flight_id request) flights_db with
  | Some _ =>
      Conflict (fst (create_flight request flights_db))
      ∧ snd (create_flight request flights_db) = flights_db
  | None =>
      let flight :=
        Flight.mk (FlightCreate.flight_id request) (FlightCreate.destination request)
          (FlightCreate.departure request) (FlightCreate.flight_type request)
          (FlightCreate.aircraft request) (FlightCreate.seats request)
          (FlightCreate.flight_datetime request) "reserved" in
      is_ok (fst (create_flight request flights_db))
      ∧ snd (create_flight request flights_db)
        = flights_db ++ [(FlightCreate.flight_id request, flight)]
      ∧ Py.get (FlightCreate.flight_id request) (snd (create_flight request flights_db))
        = Some flight
      ∧ ∀ other, other ≠ FlightCreate.flight_id request →
          Py.get other (snd (create_flight request flights_db))
          = Py.get other flights_db
  end.
Proof.
  unfold create_flight, Py.contains.
  destruct (Py.get (FlightCreate.flight_id request) flights_db) eqn:Hget; simpl.
  - done.
  - split; [done|]. split; [by apply PyFacts.set_absent|].
    split; [apply PyFacts.get_set_eq|].
    intros other Hne. by apply PyFacts.get_set_ne.
Qed.

Example create_twice_example :
  let request := FlightCreate.mk "F7" "CUN" "MEX" "commercial" "A321" 200 (Py.naive 1700007200000000) None in
  let request' := FlightCreate.mk "F7" "LAX" "SFO" "private" "G650" 12 (Py.naive 1700010800000000) (Some "confirmed") in
  let db1 := snd (create_flight request []) in
  Conflict (fst (create_flight request' db1)) ∧ snd (create_flight request' db1) = db1.
Proof. split; reflexivity. Qed.

(** C10. A flight update never changes a flight's [flight_id] or [state]:
    under every key the stored flight has the same id and the same state
    before and after, and the keys of the store are the same. *)
Theorem update_flight_preserves_id_and_state
    (request : FlightUpdate.t) (flights_db : flights_db_t) (key : string) :
  Flight.flight_id <$> Py.get key (snd (update_flight request flights_db))
  = Flight.flight_id <$> Py.get key flights_db
  ∧ Flight.state <$> Py.get key (snd (update_flight request flights_db))
    = Flight.state <$> Py.get key flights_db
  ∧ Py.keys (snd (update_flight request flights_db)) = Py.keys flights_db.
Proof.
  assert (Hupd : ∀ self, Flight.flight_id (Flight.update request self) = Flight.flight_id self
                       ∧ Flight.state (Flight.update request self) = Flight.state self).
  { intros self. unfold Flight.update.
    destruct request as [rid [dest|] [dep|] [ftype|] [air|] [s|] [dt|]]; simpl;
      repeat match goal with |- context [decide ?P] => destruct (decide P) end;
      by destruct self. }
  unfold update_flight.
  destruct (Py.get (FlightUpdate.flight_id request) flights_db) as [flight|] eqn:Hget;
    simpl; [|done].
  rewrite PyFacts.keys_mutate.
  destruct (decide (FlightUpdate.flight_id request = key)) as [<-|Hne].
  - rewrite PyFacts.get_mutate_eq, Hget. simpl.
    destruct (Hupd flight) as [-> ->]. done.
  - by rewrite PyFacts.get_mutate_ne.
Qed.


(** ** Flights: partial update *)

Example update_empty_destination_example :
  let request := FlightUpdate.mk "F1" (Some "") None None None (Some 0) None in
  snd (update_flight request sample_db)
  = [("F1", Flight.set_seats 0 F1); ("F2", F2)].
Proof. reflexivity. Qed.

(** The statement that update overwrites exactly the non-null fields fails:
    a payload for F1 whose [destination] is the empty string (non-null)
    leaves the stored destination ["MAD"] in place. *)
Lemma update_non_null_counterexample : ¬ update_overwrites_non_null.
Proof.
  intros Hclaim.
  specialize (Hclaim (FlightUpdate.mk "F1" (Some "") None None None None None) sample_db).
  vm_compute in Hclaim. discriminate Hclaim.
Qed.

Lemma Flight_update_by_content (data : FlightUpdate.t) (self : Flight.t) :
  Flight.update data self = update_by_content data self.
Proof.
  unfold Flight.update, update_by_content, overwrite_if_nonempty, overwrite_if_present.
  destruct data as [rid [dest|] [dep|] [ftype|] [air|] [s|] [dt|]]; simpl;
    repeat match goal with |- context [decide ?P] => destruct (decide P) end;
    by destruct self.
Qed.

(** C2 (amended). Flight update fails with NotFound when the flight id is
    absent and leaves the store alone; otherwise it succeeds and the stored
    flight becomes [update_by_content]: each of destination, departure,
    flight_type and aircraft is overwritten exactly when its payload value
    is non-null and not the empty string, each of seats and flight_datetime
    exactly when its payload value is non-null, every field decided on its
    own payload value only; all other flights are untouched. *)
Theorem update_flight_spec (request : FlightUpdate.t) (flights_db : flights_db_t) :
  match Py.get (FlightUpdate.flight_id request) flights_db with
  | None =>
      NotFound (fst (update_flight request flights_db))
      ∧ snd (update_flight request flights_db) = flights_db
  | Some flight =>
      is_ok (fst (update_flight request flights_db))
      ∧ Py.get (FlightUpdate.flight_id request) (snd (update_flight request flights_db))
        = Some (update_by_content request flight)
      ∧ ∀ other, other ≠ FlightUpdate.flight_id request →
          Py.get other (snd (update_flight request flights_db))
          = Py.get other flights_db
  end.
Proof.
  unfold update_flight.
  destruct (Py.get (FlightUpdate.flight_id request) flights_db) as [flight|] eqn:Hget;
    simpl.
  - split; [done|]. split.
    + by rewrite PyFacts.get_mutate_eq, Hget, <- Flight_update_by_content.
    + intros other Hne. by apply PyFacts.get_mutate_ne.
  - split; [reflexivity | done].
Qed.

(** ** Flights: search *)

Example search_destination_example :
  search_flights (SearchQuery.mk None (Some "LIM") None None None None None) sample_db
  = Ok [F2].
Proof. reflexivity. Qed.

Example search_no_match_example :
  search_flights (SearchQuery.mk None (Some "LIM") None None None (Some 180) None) sample_db
  = Raise flight_not_found.
Proof. reflexivity. Qed.

Example search_empty_destination_example :
  search_flights (SearchQuery.mk None (Some "") None None None None None) sample_db
  = Ok [F1; F2].
Proof. reflexivity. Qed.

(** The statement that search tests every supplied filter fails: with the
    supplied filter [destination = ""] no flight of the sample store matches
    by equality, and the search returns both flights instead of failing. *)
Lemma search_exact_match_counterexample : ¬ search_returns_exact_matches.
Proof.
  intros Hclaim.
  specialize (Hclaim (SearchQuery.mk None (Some "") None None None None None) sample_db).
  rewrite search_empty_destination_example in Hclaim.
  destruct Hclaim as [_ Hiff].
  destruct (proj1 (Hiff F1)) as (flight & _ & Hmatch & Heq).
  { apply list_elem_of_here. }
  destruct Hmatch as (_ & Hdest & _).
  specialize (Hdest "" eq_refl).
  rewrite to_dict_id in Heq. subst flight. discriminate Hdest.
Qed.

Lemma string_test_spec (filter : option string) (actual : string) :
  Py.truthy_str filter && bool_decide (Some actual ≠ filter) = false
  ↔ nonempty_filter_holds filter actual.
Proof.
  unfold nonempty_filter_holds. destruct filter as [v|]; simpl.
  - destruct (decide (v = "")) as [->|Hv]; simpl.
    + split; [intros _ v' [= <-] Hne; by destruct Hne | done].
    + rewrite bool_decide_eq_false. split.
      * intros Hnn v' [= <-] _. destruct (decide (actual = v)); [done|].
        destruct Hnn. congruence.
      * intros Hall Hne. apply Hne. f_equal. by apply Hall.
  - split; [intros _ v' [=] | done].
Qed.

Lemma optional_test_spec {A} `{EqDecision A} (filter : option A) (actual : A) :
  Py.is_not_None filter && bool_decide (Some actual ≠ filter) = false
  ↔ filter_holds filter actual.
Proof.
  unfold filter_holds. destruct filter as [v|]; simpl.
  - rewrite bool_decide_eq_false. split.
    + intros Hnn v' [= <-]. destruct (decide (actual = v)); [done|].
      destruct Hnn. congruence.
    + intros Hall Hne. apply Hne. f_equal. by apply Hall.
  - split; [intros _ v' [=] | done].
Qed.

Lemma datetime_test_spec (filter : option Py.datetime) (actual : Py.datetime) :
  Py.is_not_None filter
  && match filter with
     | Some v => Py.datetime_ne actual v
     | None => false
     end = false
  ↔ datetime_filter_holds filter actual.
Proof.
  unfold datetime_filter_holds, Py.datetime_ne. destruct filter as [v|]; simpl.
  - rewrite negb_false_iff. split.
    + by intros Heq v' [= <-].
    + intros Hall. by apply Hall.
  - split; [intros _ v' [=] | done].
Qed.

Lemma search_skips_spec (q : SearchQuery.t) (flight : Flight.t) :
  search_skips q flight = false ↔ matches_effective_filters q flight.
Proof.
  unfold matches_effective_filters.
  rewrite <- !string_test_spec, <- !optional_test_spec, <- datetime_test_spec.
  unfold search_skips.
  repeat match goal with
         | |- context [if ?b && ?c then _ else _] => destruct (b && c)
         end; intuition congruence.
Qed.

Lemma search_loop_filter (q : SearchQuery.t) (flights results : list Flight.t) :
  search_loop q flights results
  = results ++ (Flight.to_dict <$> filter (matches_effective_filters q) flights).
Proof.
  revert results. induction flights as [|flight rest IH]; intros results; simpl.
  - by rewrite app_nil_r.
  - rewrite filter_cons. destruct (search_skips q flight) eqn:Hskip.
    + rewrite decide_False; [apply IH|].
      rewrite <- search_skips_spec. congruence.
    + rewrite decide_True by (by apply search_skips_spec).
      rewrite IH, fmap_cons, <- app_assoc. done.
Qed.

Example search_naive_datetime_example :
  search_flights
    (SearchQuery.mk None None None None None None (Some (Py.naive 1700000000000000)))
    sample_db
  = Ok [F1].
Proof. reflexivity. Qed.

Example search_aware_datetime_example :
  search_flights
    (SearchQuery.mk None None None None None None (Some (Py.aware 1700021600000000 0)))
    sample_db
  = Ok [F2].
Proof. reflexivity. Qed.

Example search_mixed_datetime_example :
  search_flights
    (SearchQuery.mk None None None None None None (Some (Py.aware 1700000000000000 0)))
    sample_db
  = Raise flight_not_found.
Proof. reflexivity. Qed.

(** C3 (amended). Search returns, in store order, exactly the flights that
    equal every effective filter, where a string filter is effective when
    it is supplied and not the empty string and the seats and
    flight_datetime filters are effective when supplied; filters that are
    omitted, or supplied as the empty string, are not tested.  Strings and
    seats are compared by value; datetimes as [==] compares them: two
    naive ones by wall-clock reading, two aware ones by the instant they
    denote, a naive and an aware one never equal.  It fails with NotFound
    exactly when no flight matches. *)
Theorem search_flights_spec (q : SearchQuery.t) (flights_db : flights_db_t) :
  search_flights q flights_db
  = match filter (matches_effective_filters q) (Py.values flights_db) with
    | [] => Raise flight_not_found
    | matching => Ok (Flight.to_dict <$> matching)
    end.
Proof.
  unfold search_flights. rewrite search_loop_filter. simpl.
  by destruct (filter (matches_effective_filters q) (Py.values flights_db)).
Qed.

End FlightsSpec.

(** ** Authentication and the admin gate *)

Module AuthSpec.
Import Http Auth Stated.

Section Gate.
Variable jwt_decode : string → string → list string → JWTError + Claims.
Variable fake_users_db : Py.dict string User.

Local Abbreviation get_current_user := (Auth.get_current_user jwt_decode fake_users_db).
Local Abbreviation Depends_admin_required := (Auth.Depends_admin_required jwt_decode fake_users_db).
Local Abbreviation resolves_to := (Stated.resolves_to jwt_decode fake_users_db).
Local Abbreviation route := (FlightRoutes.route jwt_decode fake_users_db).

Lemma resolves_to_functional (token : string) (user user' : User) :
  resolves_to token user → resolves_to token user' → user = user'.
Proof.
  intros (p & u & Hp & Hu & Hg) (p' & u' & Hp' & Hu' & Hg').
  rewrite Hp in Hp'. injection Hp' as <-.
  rewrite Hu in Hu'. injection Hu' as <-. congruence.
Qed.

(** C4. For every token, validation either yields the principal the token
    resolves to (the token decodes and its subject is a registered user),
    or, when the token resolves to no principal, the one Unauthenticated
    outcome (status 401 with one fixed detail); in particular every way
    the decoding can fail (malformed token, signature mismatch, expired
    signature, invalid claims) gives that same outcome. *)
Theorem get_current_user_spec (token : string) :
  ((∃ user, resolves_to token user ∧ get_current_user token = Ok user)
   ∨ ((∀ user, ¬ resolves_to token user)
      ∧ get_current_user token = Raise invalid_credentials
      ∧ Unauthenticated (get_current_user token)))
  ∧ match jwt_decode token SECRET_KEY [ALGORITHM] with
    | inl MalformedToken | inl SignatureMismatch
    | inl ExpiredSignatureError | inl JWTClaimsError =>
        get_current_user token = Raise invalid_credentials
    | inr payload =>
        ∀ user, get_current_user token = Ok user ↔ resolves_to token user
    end.
Proof.
  unfold Auth.get_current_user, Stated.resolves_to.
  destruct (jwt_decode token SECRET_KEY [ALGORITHM]) as [err|payload] eqn:Hdec.
  - split; [|by destruct err].
    right. split; [|done]. by intros user (p & u & [=] & _).
  - destruct (sub payload) as [username|] eqn:Hsub.
    + destruct (Py.get username fake_users_db) as [user|] eqn:Hget.
      * split; [left; exists user; split; [by exists payload, username | done]|].
        intros user'. split.
        -- intros [= <-]. by exists payload, username.
        -- intros (p & u & [= <-] & Hu & Hg). congruence.
      * split.
        -- right. split; [|done].
           intros user (p & u & [= <-] & Hu & Hg). congruence.
        -- intros user. split; [done|].
           intros (p & u & [= <-] & Hu & Hg). congruence.
    + split.
      * right. split; [|done]. intros user (p & u & [= <-] & Hu & _). congruence.
      * intros user. split; [done|].
        intros (p & u & [= <-] & Hu & _). congruence.
Qed.

(** C5. For every token that passes authentication, the admin gate fails
    with Forbidden exactly when the principal's [is_admin] is false and
    returns the principal exactly when it is true; a flight route runs its
    endpoint only for an admin, and otherwise fails with Forbidden and
    leaves the flight store as it was.  A token that does not pass
    authentication never reaches an endpoint either. *)
Theorem admin_required_spec (token : string) :
  match get_current_user token with
  | Ok user =>
      (Forbidden (Depends_admin_required token) ↔ is_admin user = false)
      ∧ (Depends_admin_required token = Ok user ↔ is_admin user = true)
      ∧ (is_ok (Depends_admin_required token) ↔ is_admin user = true)
      ∧ ∀ req flights_db,
          if is_admin user
          then route req token flights_db = FlightRoutes.endpoint req flights_db
          else Forbidden (fst (route req token flights_db))
               ∧ snd (route req token flights_db) = flights_db
  | Raise e =>
      ∀ req flights_db, route req token flights_db = (Raise e, flights_db)
  end.
Proof.
  unfold FlightRoutes.route, Auth.route_with_admin, Auth.Depends_admin_required.
  destruct (get_current_user token) as [user|e]; [|done].
  unfold admin_required. destruct (is_admin user); simpl.
  - repeat split; try done; by intros [].
  - repeat split; try done; try discriminate; by intros [].
Qed.

End Gate.

(** The provisioned table: only the administrator resolves. *)
Example provisioned_admin_passes (jwt_decode : string → string → list string → JWTError + Claims)
    (admin_hash token : string) :
  jwt_decode token SECRET_KEY [ALGORITHM] = inr (mkClaims (Some "admin@example.com") (Some 0)) →
  Auth.Depends_admin_required jwt_decode (provisioned_users_db admin_hash) token
  = Ok (mkUser "admin@example.com" admin_hash true).
Proof.
  intros Hdec. unfold Auth.Depends_admin_required, Auth.get_current_user.
  by rewrite Hdec.
Qed.

End AuthSpec.

(** ** Reservations *)

Module BookingsSpec.
Import Http Bookings Stated.

Lemma keyed_by_id_get (reservation_id : Z) (reservation : Reservation)
    (reservations : repository_t) :
  keyed_by_id reservations →
  get_reservation reservation_id reservations = Some reservation →
  id reservation = reservation_id.
Proof.
  intros Hkeyed Hget. apply PyFacts.get_Some_elem_of in Hget.
  unfold keyed_by_id in Hkeyed. rewrite Forall_forall in Hkeyed.
  exact (Hkeyed _ Hget).
Qed.

Lemma keyed_by_id_set (reservation : Reservation) (reservations : repository_t) :
  keyed_by_id reservations →
  keyed_by_id (Py.set (id reservation) reservation reservations).
Proof.
  unfold keyed_by_id. induction reservations as [|[k r] rest IH]; simpl.
  - intros _. by apply Forall_cons.
  - intros [Hk Hrest]%Forall_cons. case_decide; subst.
    + by apply Forall_cons.
    + apply Forall_cons. split; [done | by apply IH].
Qed.

Lemma keyed_by_id_mutate (f : Reservation → Reservation) (reservation_id : Z)
    (reservations : repository_t) :
  (∀ r, id (f r) = id r) →
  keyed_by_id reservations →
  keyed_by_id (Py.mutate f reservation_id reservations).
Proof.
  intros Hf. unfold keyed_by_id.
  induction reservations as [|[k r] rest IH]; simpl; [done|].
  intros [Hk Hrest]%Forall_cons. case_decide; subst.
  - apply Forall_cons. split; [simpl in *; by rewrite Hf | done].
  - apply Forall_cons. split; [done | by apply IH].
Qed.

(** Cancelling a stored reservation is the in-place status change; the
    [update_reservation] that follows stores the same object again. *)
Lemma cancel_reservation_stored (reservation_id : Z) (reservation : Reservation)
    (reservations : repository_t) :
  keyed_by_id reservations →
  get_reservation reservation_id reservations = Some reservation →
  BookingManager_cancel_reservation reservation_id reservations
  = (Ok tt, Py.mutate (set_status "cancelled") reservation_id reservations).
Proof.
  intros Hkeyed Hget. unfold BookingManager_cancel_reservation.
  rewrite Hget. unfold update_reservation. simpl.
  rewrite (keyed_by_id_get _ _ _ Hkeyed Hget).
  assert (Hget' : Py.get reservation_id
                    (Py.mutate (set_status "cancelled") reservation_id reservations)
                  = Some (set_status "cancelled" reservation)).
  { unfold get_reservation in Hget. by rewrite PyFacts.get_mutate_eq, Hget. }
  unfold Py.contains. rewrite Hget'. simpl. f_equal.
  rewrite PyFacts.set_present by eauto.
  apply PyFacts.mutate_fixed. intros v Hv. congruence.
Qed.

Lemma cancel_reservation_absent (reservation_id : Z) (reservations : repository_t) :
  get_reservation reservation_id reservations = None →
  BookingManager_cancel_reservation reservation_id reservations
  = (Raise reservation_not_found, reservations).
Proof. intros Hget. unfold BookingManager_cancel_reservation. by rewrite Hget. Qed.

(** Every reachable repository is a dict keyed by reservation id. *)
Lemma reachable_well_formed (accepted : Reservation → Prop) (reservations : repository_t) :
  reachable accepted reservations →
  Py.unique_keys reservations ∧ keyed_by_id reservations.
Proof.
  induction 1 as [|reservation reservations _ [Hu Hk] _
                  |reservation reservations _ [Hu Hk] _
                  |reservation_id reservations _ [Hu Hk]].
  - split; [apply PyFacts.unique_keys_empty | apply Forall_nil_2].
  - unfold BookingManager_create_reservation, add_reservation.
    destruct (Py.contains _ _); simpl; [done|].
    split; [by apply PyFacts.unique_keys_set | by apply keyed_by_id_set].
  - unfold BookingManager_update_reservation, update_reservation.
    destruct (Py.contains _ _); simpl; [|done].
    split; [by apply PyFacts.unique_keys_set | by apply keyed_by_id_set].
  - destruct (get_reservation reservation_id reservations) as [r|] eqn:Hget.
    + rewrite (cancel_reservation_stored _ _ _ Hk Hget). simpl.
      split; [by apply PyFacts.unique_keys_mutate | by apply keyed_by_id_mutate].
    + by rewrite (cancel_reservation_absent _ _ Hget).
Qed.

Lemma list_all_mutate (f : Reservation → Reservation) (reservation_id : Z)
    (reservations : repository_t) :
  Py.unique_keys reservations →
  keyed_by_id reservations →
  list_all (Py.mutate f reservation_id reservations)
  = (λ r, if decide (id r = reservation_id) then f r else r) <$> list_all reservations.
Proof.
  intros Huniq Hkeyed. rewrite PyFacts.mutate_unique by done.
  unfold list_all, Py.values. clear Huniq.
  induction Hkeyed as [|[k r] rest Hk _ IH]; simpl; [done|].
  simpl in Hk. rewrite Hk. f_equal; [by case_decide | exact IH].
Qed.

Example cancel_reservation_example :
  cancel_reservation 42 sample_repository
  = (Ok "Reservación cancelada.", [(1, R1); (42, set_status "cancelled" R42)]).
Proof. reflexivity. Qed.

Example cancel_missing_reservation_example :
  cancel_reservation 7 sample_repository
  = (Raise reservation_not_found, sample_repository).
Proof. reflexivity. Qed.

(** C9. On a repository keyed by reservation id, cancelling an id that is
    not stored fails with NotFound and leaves the repository unchanged;
    cancelling a stored id succeeds, and the following [list_all] returns
    the same records in the same order, the one with that id now with
    status ["cancelled"] and its id, passenger e-mail, flight id and seat
    number as before, every other record untouched. *)
Theorem cancel_reservation_spec (reservation_id : Z) (reservations : repository_t)
    (Hunique : Py.unique_keys reservations) (Hkeyed : keyed_by_id reservations) :
  match get_reservation reservation_id reservations with
  | None =>
      NotFound (fst (BookingManager_cancel_reservation reservation_id reservations))
      ∧ snd (BookingManager_cancel_reservation reservation_id reservations)
        = reservations
  | Some reservation =>
      let reservations' :=
        snd (BookingManager_cancel_reservation reservation_id reservations) in
      fst (BookingManager_cancel_reservation reservation_id reservations) = Ok tt
      ∧ get_reservation reservation_id reservations'
        = Some (mkReservation (id reservation) (passenger_email reservation)
                  (flight_id reservation) (seat_number reservation) "cancelled")
      ∧ list_all reservations'
        = (λ r, if decide (id r = reservation_id)
                then mkReservation (id r) (passenger_email r) (flight_id r)
                       (seat_number r) "cancelled"
                else r) <$> list_all reservations
  end.
Proof.
  destruct (get_reservation reservation_id reservations) as [reservation|] eqn:Hget.
  - rewrite (cancel_reservation_stored _ _ _ Hkeyed Hget). simpl.
    split; [done|]. split.
    + unfold get_reservation in *. by rewrite PyFacts.get_mutate_eq, Hget.
    + by apply list_all_mutate.
  - rewrite (cancel_reservation_absent _ _ Hget). by split.
Qed.

Lemma sample_repository_reachable : reachable status_in_enum sample_repository.
Proof.
  apply (reach_create status_in_enum R42 [(1, R1)]); [|by left].
  apply (reach_create status_in_enum R1 []); [apply reach_init | by left].
Qed.

Lemma cancel_reservation_spec_witness :
  fst (BookingManager_cancel_reservation 42 sample_repository) = Ok tt
  ∧ get_reservation 42 (snd (BookingManager_cancel_reservation 42 sample_repository))
    = Some (mkReservation 42 "c@d.org" "F2" (Some "12A") "cancelled")
  ∧ list_all (snd (BookingManager_cancel_reservation 42 sample_repository))
    = [R1; mkReservation 42 "c@d.org" "F2" (Some "12A") "cancelled"].
Proof.
  assert (Hunique : Py.unique_keys sample_repository).
  { unfold Py.unique_keys. simpl. apply NoDup_cons. split.
    - rewrite list_elem_of_singleton. discriminate.
    - apply NoDup_singleton. }
  assert (Hkeyed : keyed_by_id sample_repository).
  { unfold keyed_by_id. repeat constructor. }
  exact (cancel_reservation_spec 42 sample_repository Hunique Hkeyed).
Defined.

(** ** Reservation status *)

Example create_with_any_status_example :
  let reservation := Reservation_of_body 5 "e@f.net" "F1" None (Some "checked-in") in
  create_reservation reservation sample_repository
  = (Ok reservation, sample_repository ++ [(5, reservation)]).
Proof. reflexivity. Qed.

(** The statement that the status ranges over the two enum values fails:
    [status] is a plain string, and a creation request carrying
    ["checked-in"] is accepted and stored with that status. *)
Lemma reservation_status_counterexample : ¬ reservation_status_is_enum.
Proof.
  intros [Hinitial _].
  specialize (Hinitial (Reservation_of_body 5 "e@f.net" "F1" None (Some "checked-in"))
                sample_repository I).
  discriminate Hinitial.
Qed.

Lemma stored_status_counterexample :
  ∃ reservations reservation,
    reachable (λ _, True) reservations
    ∧ reservation ∈ list_all reservations
    ∧ ¬ status_in_enum reservation.
Proof.
  exists [(5, Reservation_of_body 5 "e@f.net" "F1" None (Some "checked-in"))],
         (Reservation_of_body 5 "e@f.net" "F1" None (Some "checked-in")).
  split; [|split].
  - apply (reach_create (λ _, True)
             (Reservation_of_body 5 "e@f.net" "F1" None (Some "checked-in")) []);
      [apply reach_init | done].
  - apply list_elem_of_here.
  - intros [Hs|Hs]; discriminate Hs.
Qed.

Lemma status_in_enum_set (reservation : Reservation) (reservations : repository_t) :
  status_in_enum reservation →
  Forall status_in_enum (list_all reservations) →
  Forall status_in_enum (list_all (Py.set (id reservation) reservation reservations)).
Proof.
  intros Hr. unfold list_all, Py.values.
  induction reservations as [|[k r] rest IH]; simpl.
  - intros _. by apply Forall_cons.
  - intros [Hk Hrest]%Forall_cons. case_decide; simpl.
    + by apply Forall_cons.
    + apply Forall_cons. split; [done | by apply IH].
Qed.

Lemma status_in_enum_cancel (reservation_id : Z) (reservations : repository_t) :
  Forall status_in_enum (list_all reservations) →
  Forall status_in_enum
    (list_all (Py.mutate (set_status "cancelled") reservation_id reservations)).
Proof.
  unfold list_all, Py.values.
  induction reservations as [|[k r] rest IH]; simpl; [done|].
  intros [Hk Hrest]%Forall_cons. case_decide; simpl.
  - apply Forall_cons. split; [by right | done].
  - apply Forall_cons. split; [done | by apply IH].
Qed.

(** C8 (amended). A reservation built from a request body that leaves
    out [status] has status ["reserved"], one built from a body that
    carries a status has that status, whatever string it is; on any
    repository [create] stores the reservation with that very status and
    its other fields as given (or fails with Conflict and stores nothing).
    At every repository state reached from the empty repository by create
    and update requests whose status is ["reserved"] or ["cancelled"], and
    by cancellations, every stored reservation has status ["reserved"] or
    ["cancelled"]. *)
Theorem reservation_status_spec (reservations : repository_t)
    (Hreach : reachable status_in_enum reservations) :
  (∀ reservation, reservation ∈ list_all reservations → status_in_enum reservation)
  ∧ (∀ (any_reservations : repository_t) reservation_id passenger_email flight_id
       seat_number (body_status : option string),
       let reservation :=
         Reservation_of_body reservation_id passenger_email flight_id seat_number
           body_status in
       let stored_status :=
         match body_status with
         | Some carried => carried
         | None => "reserved"
         end in
       status reservation = stored_status
       ∧ match get_reservation reservation_id any_reservations with
         | None =>
             create_reservation reservation any_reservations
             = (Ok (mkReservation reservation_id passenger_email flight_id seat_number
                      stored_status),
                any_reservations
                ++ [(reservation_id,
                     mkReservation reservation_id passenger_email flight_id seat_number
                       stored_status)])
         | Some _ =>
             Conflict (fst (create_reservation reservation any_reservations))
             ∧ snd (create_reservation reservation any_reservations) = any_reservations
         end).
Proof.
  split.
  - apply Forall_forall.
    induction Hreach as [|reservation reservations Hreach IH Hacc
                         |reservation reservations Hreach IH Hacc
                         |reservation_id reservations Hreach IH].
    + apply Forall_nil_2.
    + unfold BookingManager_create_reservation, add_reservation.
      destruct (Py.contains _ _); simpl; [done | by apply status_in_enum_set].
    + unfold BookingManager_update_reservation, update_reservation.
      destruct (Py.contains _ _); simpl; [by apply status_in_enum_set | done].
    + destruct (reachable_well_formed _ _ Hreach) as [_ Hkeyed].
      destruct (get_reservation reservation_id reservations) as [r|] eqn:Hget.
      * rewrite (cancel_reservation_stored _ _ _ Hkeyed Hget). simpl.
        by apply status_in_enum_cancel.
      * by rewrite (cancel_reservation_absent _ _ Hget).
  - intros any_reservations reservation_id passenger_email flight_id seat_number
      body_status reservation stored_status.
    assert (Hbuilt : reservation
                     = mkReservation reservation_id passenger_email flight_id
                         seat_number stored_status).
    { unfold reservation, stored_status, Reservation_of_body.
      by destruct body_status. }
    split; [by rewrite Hbuilt|].
    unfold create_reservation, BookingManager_create_reservation, add_reservation,
      Py.contains, get_reservation.
    rewrite Hbuilt. simpl.
    destruct (Py.get reservation_id any_reservations) eqn:Hget; simpl; [done|].
    by rewrite PyFacts.set_absent.
Qed.

Lemma reservation_status_spec_witness :
  (∀ reservation, reservation ∈ list_all sample_repository → status_in_enum reservation)
  ∧ create_reservation (Reservation_of_body 5 "e@f.net" "F1" None (Some "checked-in"))
      sample_repository
    = (Ok (mkReservation 5 "e@f.net" "F1" None "checked-in"),
       sample_repository ++ [(5, mkReservation 5 "e@f.net" "F1" None "checked-in")])
  ∧ create_reservation (Reservation_of_body 6 "g@h.org" "F2" (Some "3B") None)
      sample_repository
    = (Ok (mkReservation 6 "g@h.org" "F2" (Some "3B") "reserved"),
       sample_repository ++ [(6, mkReservation 6 "g@h.org" "F2" (Some "3B") "reserved")]).
Proof.
  destruct (reservation_status_spec sample_repository sample_repository_reachable)
    as [Hstored Hcreate].
  split; [exact Hstored|]. split.
  - exact (proj2 (Hcreate sample_repository 5 "e@f.net" "F1" None (Some "checked-in"))).
  - exact (proj2 (Hcreate sample_repository 6 "g@h.org" "F2" (Some "3B") None)).
Defined.

End BookingsSpec.

(** * Further properties of the code *)

(** ** More facts about dicts *)

Module PyEntries.
Import Py.

Section Entries.
Context {K V : Type} `{EqDecision K}.
Implicit Types (k : K) (v : V) (d : dict K V).

Lemma mutate_absent f k d : get k d = None → mutate f k d = d.
Proof. intros Hget. apply PyFacts.mutate_fixed. intros v Hv. congruence. Qed.

Lemma Forall_mutate (P : K * V → Prop) f k d :
  (∀ v, P (k, v) → P (k, f v)) → Forall P d → Forall P (mutate f k d).
Proof.
  intros Hf. induction d as [|[k' v'] d IH]; simpl; [done|].
  intros [Hhead Htail]%Forall_cons. case_decide; subst.
  - apply Forall_cons. split; [by apply Hf | done].
  - apply Forall_cons. split; [done | by apply IH].
Qed.

Lemma Forall_set (P : K * V → Prop) k v d :
  P (k, v) → Forall P d → Forall P (set k v d).
Proof.
  intros Hkv. induction d as [|[k' v'] d IH]; simpl.
  - intros _. by apply Forall_cons.
  - intros [Hhead Htail]%Forall_cons. case_decide; subst.
    + by apply Forall_cons.
    + apply Forall_cons. split; [done | by apply IH].
Qed.

Lemma keys_set_present k v d : is_Some (get k d) → keys (set k v d) = keys d.
Proof.
  intros Hs. rewrite PyFacts.set_present by done. apply PyFacts.keys_mutate.
Qed.

Lemma keys_set_absent k v d : get k d = None → keys (set k v d) = keys d ++ [k].
Proof.
  intros Hget. rewrite PyFacts.set_absent by done.
  unfold keys. by rewrite fmap_app.
Qed.

(** With unique keys, the values found under [k] by a scan are the value
    [get] returns, if any. *)
Lemma filter_key_unique k d :
  unique_keys d →
  snd <$> filter (λ kv, fst kv = k) d = option_list (get k d).
Proof.
  unfold unique_keys, keys.
  induction d as [|[k' v'] d IH]; [done|].
  rewrite fmap_cons. intros [Hk' Hnd]%NoDup_cons. specialize (IH Hnd).
  rewrite filter_cons. cbn [get fst]. case_decide as Hk; subst.
  - rewrite fmap_cons. cbn [snd option_list]. f_equal.
    assert (Hnone : get k d = None) by (by apply PyFacts.get_None_keys).
    by rewrite IH, Hnone.
  - exact IH.
Qed.

End Entries.
End PyEntries.

(** ** The flight store over time *)

Module FlightsExtra.
Import Http Flights FlightRoutes FlightStore Stated.

(** The store a request leaves behind, in closed form. *)
Lemma store_after (req : request) (flights_db : flights_db_t) :
  snd (endpoint req flights_db)
  = match req with
    | PostCreate body =>
        if Py.contains (FlightCreate.flight_id body) flights_db
        then flights_db
        else flights_db
             ++ [(FlightCreate.flight_id body, FlightFactory_create_flight body)]
    | PutUpdate body =>
        Py.mutate (Flight.update body) (FlightUpdate.flight_id body) flights_db
    | PostConfirm flight_id =>
        Py.mutate (Flight.set_state "confirmed") flight_id flights_db
    | PostCancel flight_id =>
        Py.mutate (λ self, snd (Flight.cancel self)) flight_id flights_db
    | GetSearch _ | GetAll => flights_db
    end.
Proof.
  destruct req as [body|query|body| |flight_id|flight_id]; simpl; try done.
  - unfold create_flight, Py.contains.
    destruct (Py.get (FlightCreate.flight_id body) flights_db) eqn:Hget; simpl; [done|].
    by apply PyFacts.set_absent.
  - unfold update_flight.
    destruct (Py.get (FlightUpdate.flight_id body) flights_db) eqn:Hget; simpl; [done|].
    symmetry. by apply PyEntries.mutate_absent.
  - unfold confirm_flight.
    destruct (Py.get flight_id flights_db) eqn:Hget; simpl; [done|].
    symmetry. by apply PyEntries.mutate_absent.
  - unfold cancel_flight.
    destruct (Py.get flight_id flights_db) eqn:Hget; simpl; [done|].
    symmetry. by apply PyEntries.mutate_absent.
Qed.

Lemma list_flights_values (flights_db : flights_db_t) :
  list_flights flights_db = Py.values flights_db.
Proof.
  unfold list_flights. induction (Py.values flights_db) as [|flight rest IH]; [done|].
  by rewrite fmap_cons, IH, FlightsSpec.to_dict_id.
Qed.

Lemma Flight_update_frame (data : FlightUpdate.t) (self : Flight.t) :
  Flight.flight_id (Flight.update data self) = Flight.flight_id self
  ∧ Flight.state (Flight.update data self) = Flight.state self.
Proof. by rewrite FlightsSpec.Flight_update_by_content. Qed.

Lemma Flight_cancel_state (self : Flight.t) :
  Flight.flight_id (snd (Flight.cancel self)) = Flight.flight_id self
  ∧ (Flight.state (snd (Flight.cancel self)) = "confirmed"
     ∨ Flight.state (snd (Flight.cancel self)) = "cancelled").
Proof. unfold Flight.cancel. case_decide; simpl; auto. Qed.

Lemma endpoint_keeps_entries (req : request) (flights_db : flights_db_t) :
  Py.unique_keys flights_db ∧ Forall entry_ok flights_db →
  Py.unique_keys (snd (endpoint req flights_db))
  ∧ Forall entry_ok (snd (endpoint req flights_db)).
Proof.
  intros [Hunique Hentries]. rewrite store_after.
  destruct req as [body|query|body| |flight_id|flight_id]; try done.
  - unfold Py.contains.
    destruct (Py.get (FlightCreate.flight_id body) flights_db) eqn:Hget; [done|].
    rewrite <- (PyFacts.set_absent _ (FlightFactory_create_flight body)) by done.
    split; [by apply PyFacts.unique_keys_set|].
    apply PyEntries.Forall_set; [|done]. split; [done | by left].
  - split; [by apply PyFacts.unique_keys_mutate|].
    apply PyEntries.Forall_mutate; [|done].
    intros v [Hid Hstate]. unfold entry_ok, state_in_enum in *. simpl in *.
    by destruct (Flight_update_frame body v) as [-> ->].
  - split; [by apply PyFacts.unique_keys_mutate|].
    apply PyEntries.Forall_mutate; [|done].
    intros v [Hid Hstate]. split; [done | right; by left].
  - split; [by apply PyFacts.unique_keys_mutate|].
    apply PyEntries.Forall_mutate; [|done].
    intros v [Hid Hstate]. unfold entry_ok, state_in_enum. simpl in *.
    destruct (Flight_cancel_state v) as [-> [->| ->]]; auto.
Qed.

Lemma sample_db_reachable : reachable sample_db.
Proof.
  exact (reach_request (PostConfirm "F2") _
           (reach_request
              (PostCreate (FlightCreate.mk "F2" "LIM" "BOG" "charter" "B737" 0
                             (Py.aware 1700003600000000 (-18000000000)) None)) _
              (reach_request
                 (PostCreate (FlightCreate.mk "F1" "MAD" "BOG" "commercial" "A320" 180
                                (Py.naive 1700000000000000) (Some "confirmed"))) _
                 reach_empty))).
Qed.

(** X1. In every store the endpoints can produce from the empty one, no
    two flights share a flight id, every flight is stored under its own
    flight id, and every state is one of ["reserved"], ["confirmed"] and
    ["cancelled"]. *)
Theorem flight_store_invariant (flights_db : flights_db_t)
    (Hreach : reachable flights_db) :
  NoDup (Flight.flight_id <$> list_flights flights_db)
  ∧ keyed_by_flight_id flights_db
  ∧ Forall state_in_enum (list_flights flights_db).
Proof.
  assert (Hinv : Py.unique_keys flights_db ∧ Forall entry_ok flights_db).
  { induction Hreach as [|req flights_db _ IH].
    - split; [apply PyFacts.unique_keys_empty | apply Forall_nil_2].
    - by apply endpoint_keeps_entries. }
  destruct Hinv as [Hunique Hentries].
  rewrite list_flights_values.
  assert (Hids : Flight.flight_id <$> Py.values flights_db = Py.keys flights_db).
  { unfold Py.values, Py.keys. clear Hunique Hreach.
    induction Hentries as [|[k flight] rest [Hid _] _ IH]; [done|].
    rewrite !fmap_cons. cbn [fst snd] in *. by rewrite Hid, IH. }
  split; [by rewrite Hids|]. split.
  - unfold keyed_by_flight_id. eapply Forall_impl; [exact Hentries|].
    by intros kv [Hid _].
  - unfold Py.values. apply Forall_fmap. eapply Forall_impl; [exact Hentries|].
    by intros kv [_ Hstate].
Qed.

Lemma flight_store_invariant_witness :
  NoDup (Flight.flight_id <$> list_flights sample_db)
  ∧ keyed_by_flight_id sample_db
  ∧ Forall state_in_enum (list_flights sample_db).
Proof. exact (flight_store_invariant sample_db sample_db_reachable). Defined.

(** X2. A flight request that fails leaves the store exactly as it was,
    and the two reading requests (search, list) never change it. *)
Theorem failed_request_keeps_store (req : request) (flights_db : flights_db_t) :
  match fst (endpoint req flights_db) with
  | Raise _ => snd (endpoint req flights_db) = flights_db
  | Ok _ =>
      match req with
      | GetSearch _ | GetAll => snd (endpoint req flights_db) = flights_db
      | _ => True
      end
  end.
Proof.
  destruct req as [body|query|body| |flight_id|flight_id]; simpl.
  - unfold create_flight. by destruct (Py.contains _ _).
  - by destruct (search_flights query flights_db).
  - unfold update_flight. by destruct (Py.get _ _).
  - done.
  - unfold confirm_flight. by destruct (Py.get _ _).
  - unfold cancel_flight. by destruct (Py.get _ _).
Qed.

(** X3. No request removes or renames a flight: the flight ids of the
    store before a request are, in the same order, the first flight ids of
    the store after it; only a successful create adds one, at the end. *)
Theorem flights_never_deleted (req : request) (flights_db : flights_db_t) :
  Py.keys flights_db `prefix_of` Py.keys (snd (endpoint req flights_db))
  ∧ match req with
    | PostCreate body =>
        Py.keys (snd (endpoint req flights_db))
        = if Py.contains (FlightCreate.flight_id body) flights_db
          then Py.keys flights_db
          else Py.keys flights_db ++ [FlightCreate.flight_id body]
    | _ => Py.keys (snd (endpoint req flights_db)) = Py.keys flights_db
    end.
Proof.
  rewrite store_after.
  destruct req as [body|query|body| |flight_id|flight_id];
    rewrite ?PyFacts.keys_mutate; try done.
  destruct (Py.contains _ _); [done|].
  unfold Py.keys. rewrite fmap_app. simpl. split; [|done].
  by apply prefix_app_r.
Qed.

(** A confirmed flight stays confirmed through one request. *)
Lemma confirmed_after_request (req : request) (flights_db : flights_db_t) (key : string) :
  Flight.state <$> Py.get key flights_db = Some "confirmed" →
  Flight.state <$> Py.get key (snd (endpoint req flights_db)) = Some "confirmed".
Proof.
  intros Hconfirmed. rewrite store_after.
  destruct (Py.get key flights_db) as [flight|] eqn:Hget; [|done].
  injection Hconfirmed as Hstate.
  destruct req as [body|query|body| |flight_id|flight_id];
    try (by rewrite Hget; simpl; f_equal).
  - unfold Py.contains.
    destruct (Py.get (FlightCreate.flight_id body) flights_db) eqn:Hbody.
    + rewrite Hget. simpl. by f_equal.
    + rewrite <- (PyFacts.set_absent _ (FlightFactory_create_flight body)) by done.
      rewrite PyFacts.get_set_ne by congruence. rewrite Hget. simpl. by f_equal.
  - destruct (decide (FlightUpdate.flight_id body = key)) as [<-|Hne].
    + rewrite PyFacts.get_mutate_eq, Hget. simpl. f_equal.
      by destruct (Flight_update_frame body flight) as [_ ->].
    + rewrite PyFacts.get_mutate_ne, Hget by done. simpl. by f_equal.
  - destruct (decide (flight_id = key)) as [<-|Hne].
    + by rewrite PyFacts.get_mutate_eq, Hget.
    + rewrite PyFacts.get_mutate_ne, Hget by done. simpl. by f_equal.
  - destruct (decide (flight_id = key)) as [<-|Hne].
    + rewrite PyFacts.get_mutate_eq, Hget. simpl. f_equal.
      unfold Flight.cancel. by rewrite decide_True.
    + rewrite PyFacts.get_mutate_ne, Hget by done. simpl. by f_equal.
Qed.

(** X4. Once a flight is confirmed it stays confirmed whatever requests
    follow: no sequence of create, search, update, list, confirm and
    cancel requests moves it out of ["confirmed"]. *)
Theorem confirmed_is_final (requests : list request) (flights_db : flights_db_t)
    (key : string)
    (Hconfirmed : Flight.state <$> Py.get key flights_db = Some "confirmed") :
  Flight.state <$> Py.get key (run requests flights_db) = Some "confirmed".
Proof.
  revert flights_db Hconfirmed. unfold run.
  induction requests as [|req requests IH]; intros flights_db Hconfirmed; [done|].
  simpl. apply IH. by apply confirmed_after_request.
Qed.

Lemma confirmed_is_final_witness :
  Flight.state
    <$> Py.get "F2"
          (run [PostCancel "F2";
                PutUpdate (FlightUpdate.mk "F2" (Some "CUZ") None None None (Some 3) None);
                PostCancel "F2"] sample_db)
  = Some "confirmed".
Proof.
  apply (confirmed_is_final
           [PostCancel "F2";
            PutUpdate (FlightUpdate.mk "F2" (Some "CUZ") None None None (Some 3) None);
            PostCancel "F2"] sample_db "F2").
  reflexivity.
Defined.

(** X5. Cancelling right after confirming is refused: for a stored flight
    the cancel returns the refusal message without an error and the store
    stays as the confirm left it; for an absent flight both fail with
    NotFound. *)
Theorem cancel_after_confirm_refused (flight_id : string) (flights_db : flights_db_t) :
  cancel_flight flight_id (snd (confirm_flight flight_id flights_db))
  = match Py.get flight_id flights_db with
    | Some _ =>
        (Ok "Cannot cancel a confirmed flight.",
         snd (confirm_flight flight_id flights_db))
    | None => (Raise flight_not_found, flights_db)
    end.
Proof.
  unfold confirm_flight.
  destruct (Py.get flight_id flights_db) as [flight|] eqn:Hget; simpl.
  - unfold cancel_flight. rewrite PyFacts.get_mutate_eq, Hget. simpl. f_equal.
    apply PyFacts.mutate_fixed. intros v Hv.
    rewrite PyFacts.get_mutate_eq, Hget in Hv. injection Hv as <-.
    unfold Flight.cancel. by rewrite decide_True.
  - unfold cancel_flight. by rewrite Hget.
Qed.

Lemma Flight_cancel_twice (self : Flight.t) :
  Flight.cancel (snd (Flight.cancel self)) = Flight.cancel self.
Proof.
  unfold Flight.cancel. destruct (decide (Flight.state self = "confirmed")) as [Hc|Hc].
  - cbn [snd]. by rewrite decide_True.
  - reflexivity.
Qed.

(** X6. Cancelling is repeatable: a second cancel of the same flight id
    returns the same outcome as the first and leaves the store as the
    first left it (a cancelled flight is cancelled again, a confirmed one is
    refused again, an absent one is NotFound again). *)
Theorem cancel_flight_twice (flight_id : string) (flights_db : flights_db_t) :
  cancel_flight flight_id (snd (cancel_flight flight_id flights_db))
  = cancel_flight flight_id flights_db.
Proof.
  unfold cancel_flight at 2 3.
  destruct (Py.get flight_id flights_db) as [flight|] eqn:Hget; simpl.
  - unfold cancel_flight. rewrite PyFacts.get_mutate_eq, Hget. simpl.
    rewrite Flight_cancel_twice. f_equal.
    rewrite PyFacts.mutate_mutate. apply PyFacts.mutate_ext.
    intros v _. simpl. by rewrite Flight_cancel_twice.
  - unfold cancel_flight. by rewrite Hget.
Qed.

Lemma Flight_update_twice (data : FlightUpdate.t) (self : Flight.t) :
  Flight.update data (Flight.update data self) = Flight.update data self.
Proof.
  rewrite !FlightsSpec.Flight_update_by_content.
  unfold update_by_content, overwrite_if_nonempty, overwrite_if_present.
  destruct data as [rid [dest|] [dep|] [ftype|] [air|] [s|] [dt|]]; simpl;
    repeat match goal with |- context [decide ?P] => destruct (decide P) end;
    done.
Qed.

(** X7. A flight update is idempotent: sending the same payload a second
    time returns the same outcome and leaves the store as the first update
    left it. *)
Theorem update_flight_twice (request : FlightUpdate.t) (flights_db : flights_db_t) :
  update_flight request (snd (update_flight request flights_db))
  = update_flight request flights_db.
Proof.
  unfold update_flight at 2 3.
  destruct (Py.get (FlightUpdate.flight_id request) flights_db) as [flight|] eqn:Hget;
    simpl.
  - unfold update_flight. rewrite PyFacts.get_mutate_eq, Hget. simpl. f_equal.
    rewrite PyFacts.mutate_mutate. apply PyFacts.mutate_ext.
    intros v _. simpl. apply Flight_update_twice.
  - unfold update_flight. by rewrite Hget.
Qed.

Lemma Flight_update_ineffective (data : FlightUpdate.t) (self : Flight.t) :
  ineffective_payload data = true → Flight.update data self = self.
Proof.
  rewrite FlightsSpec.Flight_update_by_content.
  unfold ineffective_payload, update_by_content, overwrite_if_nonempty,
    overwrite_if_present.
  destruct data as [rid [dest|] [dep|] [ftype|] [air|] [s|] [dt|]]; simpl;
    repeat match goal with |- context [decide ?P] => destruct (decide P) end;
    simpl; try discriminate; intros _; by destruct self.
Qed.

(** X8. An update whose payload carries nothing that passes its test (each
    string field null or empty, seats and flight_datetime null) changes
    nothing in the store, though it still answers with success for a stored
    flight id and with NotFound for an absent one. *)
Theorem update_flight_ineffective (request : FlightUpdate.t) (flights_db : flights_db_t)
    (Hpayload : ineffective_payload request = true) :
  snd (update_flight request flights_db) = flights_db
  ∧ (is_ok (fst (update_flight request flights_db))
     ↔ is_Some (Py.get (FlightUpdate.flight_id request) flights_db)).
Proof.
  unfold update_flight.
  destruct (Py.get (FlightUpdate.flight_id request) flights_db) as [flight|] eqn:Hget;
    simpl.
  - split; [|by split; eauto].
    apply PyFacts.mutate_fixed. intros v _. by apply Flight_update_ineffective.
  - split; [done|]. split; [done | by intros [? ?]].
Qed.

Lemma update_flight_ineffective_witness :
  snd (update_flight (FlightUpdate.mk "F1" (Some "") None (Some "") None None None)
         sample_db) = sample_db
  ∧ (is_ok (fst (update_flight
                   (FlightUpdate.mk "F1" (Some "") None (Some "") None None None)
                   sample_db))
     ↔ is_Some (Py.get "F1" sample_db)).
Proof.
  apply (update_flight_ineffective
           (FlightUpdate.mk "F1" (Some "") None (Some "") None None None) sample_db).
  reflexivity.
Defined.

Lemma search_skips_ineffective (q : SearchQuery.t) (flight : Flight.t) :
  ineffective_query q = true → search_skips q flight = false.
Proof.
  unfold ineffective_query, search_skips.
  destruct (Py.truthy_str (SearchQuery.flight_id q)); [discriminate|].
  destruct (Py.truthy_str (SearchQuery.destination q)); [discriminate|].
  destruct (Py.truthy_str (SearchQuery.departure q)); [discriminate|].
  destruct (Py.truthy_str (SearchQuery.flight_type q)); [discriminate|].
  destruct (Py.truthy_str (SearchQuery.aircraft q)); [discriminate|].
  destruct (Py.is_not_None (SearchQuery.seats q)); [discriminate|].
  destruct (Py.is_not_None (SearchQuery.flight_datetime q)); [discriminate|].
  done.
Qed.

Lemma search_loop_no_skip (q : SearchQuery.t) (flights results : list Flight.t) :
  (∀ flight, search_skips q flight = false) →
  search_loop q flights results = results ++ flights.
Proof.
  intros Hskip. revert results.
  induction flights as [|flight rest IH]; intros results; simpl.
  - by rewrite app_nil_r.
  - rewrite Hskip, IH, FlightsSpec.to_dict_id, <- app_assoc. done.
Qed.

(** X9. A search none of whose filters is effective (each string filter
    omitted or empty, seats and flight_datetime omitted) returns every
    stored flight in store order, like the listing, and fails with NotFound
    on the empty store, where the listing returns the empty list. *)
Theorem search_without_filters (q : SearchQuery.t) (flights_db : flights_db_t)
    (Hquery : ineffective_query q = true) :
  search_flights q flights_db
  = match list_flights flights_db with
    | [] => Raise flight_not_found
    | flights => Ok flights
    end.
Proof.
  unfold search_flights.
  rewrite search_loop_no_skip by (intros flight; by apply search_skips_ineffective).
  rewrite list_flights_values. simpl. by destruct (Py.values flights_db).
Qed.

Lemma search_without_filters_witness :
  search_flights (SearchQuery.mk (Some "") None None None (Some "") None None) sample_db
  = Ok [F1; F2]
  ∧ search_flights (SearchQuery.mk (Some "") None None None (Some "") None None) []
    = Raise flight_not_found.
Proof.
  split.
  - apply (search_without_filters
             (SearchQuery.mk (Some "") None None None (Some "") None None) sample_db).
    reflexivity.
  - apply (search_without_filters
             (SearchQuery.mk (Some "") None None None (Some "") None None) []).
    reflexivity.
Defined.

Lemma matches_flight_id_only (flight_id : string) (flight : Flight.t) :
  flight_id ≠ "" →
  matches_effective_filters (SearchQuery.mk (Some flight_id) None None None None None None)
    flight
  ↔ Flight.flight_id flight = flight_id.
Proof.
  intros Hne. unfold matches_effective_filters, nonempty_filter_holds, filter_holds.
  simpl. split.
  - intros (Hid & _). by apply Hid.
  - intros Hid. split; [by intros v [= <-] _|].
    repeat split; by intros v [=].
Qed.

Lemma filter_flight_id_keyed (flight_id : string) (flights_db : flights_db_t) :
  flight_id ≠ "" →
  keyed_by_flight_id flights_db →
  filter (matches_effective_filters
            (SearchQuery.mk (Some flight_id) None None None None None None))
    (Py.values flights_db)
  = snd <$> filter (λ kv, fst kv = flight_id) flights_db.
Proof.
  intros Hne Hkeyed. unfold Py.values.
  induction Hkeyed as [|[k flight] rest Hk _ IH]; [done|].
  rewrite fmap_cons, !filter_cons. cbn [fst snd] in *.
  destruct (decide (k = flight_id)) as [Heq|Hneq].
  - rewrite decide_True by (apply matches_flight_id_only; congruence).
    by rewrite fmap_cons, IH.
  - rewrite decide_False; [exact IH|].
    rewrite matches_flight_id_only by done. congruence.
Qed.

(** X10. On a store with unique keys in which every flight sits under
    its own flight id (every store the endpoints produce is one), a search
    by a non-empty flight id alone returns exactly the flight stored under
    that id, and fails with NotFound when there is none. *)
Theorem search_by_flight_id (flight_id : string) (flights_db : flights_db_t)
    (Hnonempty : flight_id ≠ "")
    (Hunique : Py.unique_keys flights_db)
    (Hkeyed : keyed_by_flight_id flights_db) :
  search_flights (SearchQuery.mk (Some flight_id) None None None None None None) flights_db
  = match Py.get flight_id flights_db with
    | Some flight => Ok [flight]
    | None => Raise flight_not_found
    end.
Proof.
  unfold search_flights. rewrite FlightsSpec.search_loop_filter.
  rewrite filter_flight_id_keyed, PyEntries.filter_key_unique by done.
  destruct (Py.get flight_id flights_db) as [flight|]; simpl; [|done].
  by rewrite FlightsSpec.to_dict_id.
Qed.

Lemma search_by_flight_id_witness :
  search_flights (SearchQuery.mk (Some "F2") None None None None None None) sample_db
  = Ok [F2].
Proof.
  apply (search_by_flight_id "F2" sample_db).
  - discriminate.
  - unfold Py.unique_keys. simpl. apply NoDup_cons. split.
    + rewrite list_elem_of_singleton. discriminate.
    + apply NoDup_singleton.
  - unfold keyed_by_flight_id. repeat constructor.
Defined.

End FlightsExtra.

(** ** The reservation repository over time *)

Module BookingsExtra.
Import Http Bookings Stated.

Example create_duplicate_reservation_example :
  create_reservation (Reservation_of_body 42 "x@y.io" "F9" None None) sample_repository
  = (Raise reservation_exists, sample_repository).
Proof. reflexivity. Qed.

(** X11. Creating a reservation whose id is already stored fails with
    status 400 and leaves the repository as it was; with a fresh id it
    returns the reservation it was given, which is then found under its id
    and listed last, after the reservations listed before. *)
Theorem create_reservation_spec (reservation : Reservation) (reservations : repository_t) :
  match get_reservation (id reservation) reservations with
  | Some _ =>
      Conflict (fst (create_reservation reservation reservations))
      ∧ snd (create_reservation reservation reservations) = reservations
  | None =>
      fst (create_reservation reservation reservations) = Ok reservation
      ∧ get_reservation (id reservation) (snd (create_reservation reservation reservations))
        = Some reservation
      ∧ list_reservations (snd (create_reservation reservation reservations))
        = list_reservations reservations ++ [reservation]
      ∧ ∀ other, other ≠ id reservation →
          get_reservation other (snd (create_reservation reservation reservations))
          = get_reservation other reservations
  end.
Proof.
  unfold create_reservation, BookingManager_create_reservation, add_reservation,
    Py.contains, get_reservation.
  destruct (Py.get (id reservation) reservations) eqn:Hget; simpl; [done|].
  split; [done|]. split; [apply PyFacts.get_set_eq|]. split.
  - rewrite PyFacts.set_absent by done.
    unfold list_reservations, BookingManager_list_all_reservations, list_all, Py.values.
    by rewrite fmap_app.
  - intros other Hne. by apply PyFacts.get_set_ne.
Qed.

Lemma keyed_no_other_id (reservation_id : Z) (reservations : repository_t) :
  keyed_by_id reservations →
  get_reservation reservation_id reservations = None →
  Forall (λ r, id r ≠ reservation_id) (list_all reservations).
Proof.
  unfold get_reservation, list_all, Py.values.
  induction 1 as [|[k r] rest Hk _ IH]; simpl; [done|].
  case_decide as Hkey; [discriminate|]. intros Hget.
  apply Forall_cons. simpl in Hk. split; [congruence | by apply IH].
Qed.

(** X12. On a repository keyed by reservation id, [update_reservation]
    fails with NotFound exactly when the id is not stored, and in every case
    the listing afterwards is the listing before with the record of that id
    replaced as a whole by the given one, in its old position; nothing is
    added and no other record changes. *)
Theorem update_reservation_spec (reservation : Reservation) (reservations : repository_t)
    (Hunique : Py.unique_keys reservations) (Hkeyed : keyed_by_id reservations) :
  (NotFound (fst (BookingManager_update_reservation reservation reservations))
   ↔ get_reservation (id reservation) reservations = None)
  ∧ (fst (BookingManager_update_reservation reservation reservations) = Ok tt
     ↔ is_Some (get_reservation (id reservation) reservations))
  ∧ list_all (snd (BookingManager_update_reservation reservation reservations))
    = (λ r, if decide (id r = id reservation) then reservation else r)
        <$> list_all reservations.
Proof.
  unfold BookingManager_update_reservation, update_reservation, Py.contains,
    get_reservation.
  destruct (Py.get (id reservation) reservations) as [old|] eqn:Hget; simpl.
  - split; [by split|]. split; [by split; eauto|].
    rewrite PyFacts.set_present by eauto.
    by rewrite (BookingsSpec.list_all_mutate (λ _, reservation)).
  - split; [by split|]. split; [split; [discriminate | by intros [? ?]]|].
    pose proof (keyed_no_other_id _ _ Hkeyed Hget) as Hother.
    induction Hother as [|r rest Hr _ IH]; [done|].
    rewrite fmap_cons, decide_False by done. by rewrite <- IH.
Qed.

Lemma sample_repository_well_formed :
  Py.unique_keys sample_repository ∧ keyed_by_id sample_repository.
Proof.
  split.
  - unfold Py.unique_keys. simpl. apply NoDup_cons. split.
    + rewrite list_elem_of_singleton. discriminate.
    + apply NoDup_singleton.
  - unfold keyed_by_id. repeat constructor.
Qed.

Lemma update_reservation_spec_witness :
  list_all (snd (BookingManager_update_reservation
                   (mkReservation 1 "new@b.com" "F3" (Some "2C") "reserved")
                   sample_repository))
  = [mkReservation 1 "new@b.com" "F3" (Some "2C") "reserved"; R42].
Proof.
  exact (proj2 (proj2 (update_reservation_spec
                         (mkReservation 1 "new@b.com" "F3" (Some "2C") "reserved")
                         sample_repository
                         (proj1 sample_repository_well_formed)
                         (proj2 sample_repository_well_formed)))).
Defined.

(** X13. In every repository reachable from the empty one through
    create, update and cancel, whatever the requests carried, no two listed
    reservations share an id and every reservation is stored under its own
    id. *)
Theorem repository_ids_unique (accepted : Reservation → Prop)
    (reservations : repository_t) (Hreach : reachable accepted reservations) :
  NoDup (id <$> list_all reservations) ∧ keyed_by_id reservations.
Proof.
  destruct (BookingsSpec.reachable_well_formed _ _ Hreach) as [Hunique Hkeyed].
  split; [|done].
  assert (Hids : id <$> list_all reservations = Py.keys reservations).
  { unfold list_all, Py.values, Py.keys. clear Hunique Hreach.
    induction Hkeyed as [|[k r] rest Hk _ IH]; [done|].
    rewrite !fmap_cons. cbn [fst snd] in *. by rewrite Hk, IH. }
  by rewrite Hids.
Qed.

Lemma repository_ids_unique_witness :
  NoDup (id <$> list_all sample_repository) ∧ keyed_by_id sample_repository.
Proof.
  exact (repository_ids_unique status_in_enum sample_repository
           BookingsSpec.sample_repository_reachable).
Defined.

Lemma cancel_endpoint_store (reservation_id : Z) (reservations : repository_t) :
  snd (cancel_reservation reservation_id reservations)
  = snd (BookingManager_cancel_reservation reservation_id reservations).
Proof.
  unfold cancel_reservation.
  by destruct (BookingManager_cancel_reservation reservation_id reservations) as [[?|?] ?].
Qed.

(** X14. On a repository keyed by reservation id, cancelling is
    repeatable: a second cancel of the same id answers as the first did
    (success for a stored id, NotFound for an absent one) and leaves the
    repository as the first left it. *)
Theorem cancel_reservation_twice (reservation_id : Z) (reservations : repository_t)
    (Hkeyed : keyed_by_id reservations) :
  cancel_reservation reservation_id (snd (cancel_reservation reservation_id reservations))
  = cancel_reservation reservation_id reservations.
Proof.
  rewrite cancel_endpoint_store. unfold cancel_reservation.
  destruct (get_reservation reservation_id reservations) as [r|] eqn:Hget.
  - rewrite (BookingsSpec.cancel_reservation_stored _ _ _ Hkeyed Hget). simpl.
    assert (Hget' : get_reservation reservation_id
                      (Py.mutate (set_status "cancelled") reservation_id reservations)
                    = Some (set_status "cancelled" r)).
    { unfold get_reservation in *. by rewrite PyFacts.get_mutate_eq, Hget. }
    rewrite (BookingsSpec.cancel_reservation_stored _ _ _
               (BookingsSpec.keyed_by_id_mutate (set_status "cancelled") reservation_id
                  reservations (λ _, eq_refl) Hkeyed) Hget').
    f_equal. rewrite PyFacts.mutate_mutate. by apply PyFacts.mutate_ext.
  - rewrite (BookingsSpec.cancel_reservation_absent _ _ Hget). simpl.
    by rewrite (BookingsSpec.cancel_reservation_absent _ _ Hget).
Qed.

Lemma cancel_reservation_twice_witness :
  cancel_reservation 42 (snd (cancel_reservation 42 sample_repository))
  = cancel_reservation 42 sample_repository.
Proof.
  exact (cancel_reservation_twice 42 sample_repository
           (proj2 sample_repository_well_formed)).
Defined.

(** X15. No operation of the booking manager removes a reservation or
    moves it to another id: update and cancel leave the stored ids and
    their order as they were, and create either leaves them or adds the new
    id at the end. *)
Theorem reservations_never_deleted (reservation : Reservation) (reservation_id : Z)
    (reservations : repository_t) :
  Py.keys (snd (BookingManager_update_reservation reservation reservations))
  = Py.keys reservations
  ∧ Py.keys (snd (BookingManager_cancel_reservation reservation_id reservations))
    = Py.keys reservations
  ∧ Py.keys (snd (BookingManager_create_reservation reservation reservations))
    = if Py.contains (id reservation) reservations
      then Py.keys reservations
      else Py.keys reservations ++ [id reservation].
Proof.
  assert (Hupdate : ∀ r rs, Py.keys (snd (update_reservation r rs)) = Py.keys rs).
  { intros r rs. unfold update_reservation, Py.contains.
    destruct (Py.get (id r) rs) eqn:Hget; simpl; [|done].
    apply PyEntries.keys_set_present. eauto. }
  split; [apply Hupdate|]. split.
  - unfold BookingManager_cancel_reservation.
    destruct (get_reservation reservation_id reservations); [|done].
    by rewrite Hupdate, PyFacts.keys_mutate.
  - unfold BookingManager_create_reservation, add_reservation, Py.contains.
    destruct (Py.get (id reservation) reservations) eqn:Hget; simpl; [done|].
    by apply PyEntries.keys_set_absent.
Qed.

(** X16. Creating a reservation under a fresh id and cancelling that id
    succeeds on any repository: the listing then ends with the new
    reservation, its status ["cancelled"] and its other fields as given,
    after the reservations listed before. *)
Theorem create_then_cancel (reservation : Reservation) (reservations : repository_t)
    (Hfresh : get_reservation (id reservation) reservations = None) :
  cancel_reservation (id reservation) (snd (create_reservation reservation reservations))
  = (Ok "Reservación cancelada.",
     reservations
     ++ [(id reservation,
          mkReservation (id reservation) (passenger_email reservation)
            (flight_id reservation) (seat_number reservation) "cancelled")]).
Proof.
  unfold get_reservation in Hfresh.
  assert (Hcreate : snd (create_reservation reservation reservations)
                    = reservations ++ [(id reservation, reservation)]).
  { unfold create_reservation, BookingManager_create_reservation, add_reservation,
      Py.contains. rewrite Hfresh. simpl. by apply PyFacts.set_absent. }
  rewrite Hcreate, <- (PyFacts.set_absent _ reservation) by done.
  unfold cancel_reservation, BookingManager_cancel_reservation, get_reservation.
  rewrite PyFacts.get_set_eq. unfold update_reservation, Py.contains. simpl.
  rewrite PyFacts.get_mutate_eq, PyFacts.get_set_eq. simpl. f_equal.
  rewrite PyFacts.set_present
    by (rewrite PyFacts.get_mutate_eq, PyFacts.get_set_eq; eauto).
  rewrite PyFacts.mutate_mutate, PyFacts.set_absent by done.
  clear Hcreate. induction reservations as [|[k r] rest IH]; simpl.
  - by rewrite decide_True.
  - simpl in Hfresh. case_decide; [discriminate|]. by rewrite IH.
Qed.

Lemma create_then_cancel_witness :
  cancel_reservation 7
    (snd (create_reservation (Reservation_of_body 7 "g@h.com" "F1" (Some "9F") None)
            sample_repository))
  = (Ok "Reservación cancelada.",
     sample_repository ++ [(7, mkReservation 7 "g@h.com" "F1" (Some "9F") "cancelled")]).
Proof.
  apply (create_then_cancel (Reservation_of_body 7 "g@h.com" "F1" (Some "9F") None)
           sample_repository).
  reflexivity.
Defined.

End BookingsExtra.

(** ** Credentials and token issuance *)

Module LoginExtra.
Import Http Auth Login.

Section Issuance.
Variable pwd_verify : string → string → option bool.
Variable jwt_encode : Py.dict string claim → string → string → string.
Variable jwt_decode : string → string → list string → JWTError + Claims.
Variable fake_users_db : Py.dict string User.

Local Abbreviation authenticate_user :=
  (Login.authenticate_user pwd_verify fake_users_db).
Local Abbreviation create_access_token := (Login.create_access_token jwt_encode).
Local Abbreviation login_for_access_token :=
  (Login.login_for_access_token pwd_verify jwt_encode fake_users_db).
Local Abbreviation get_current_user :=
  (Auth.get_current_user jwt_decode fake_users_db).
Local Abbreviation Depends_admin_required :=
  (Auth.Depends_admin_required jwt_decode fake_users_db).

(** X17. The claims of an issued token, when the expiry is an instant a
    datetime can hold: ["exp"] is the issue time plus the given duration,
    and plus 30 minutes when the duration is omitted or is the zero
    duration; an ["exp"] already in the data is replaced; every other claim
    of the data, the subject among them, is passed on unchanged. *)
Theorem access_token_claims_spec (utcnow : Py.wall_clock) (data : Py.dict string claim)
    (expires_delta : option timedelta)
    (Hrange : datetime_representable (utcnow + effective_delta expires_delta)) :
  Py.get "exp" (access_token_claims utcnow data expires_delta)
  = Some (ClaimTime
            (Py.naive
               (utcnow + match expires_delta with
                         | Some delta =>
                             if decide (delta = 0) then 30 * 60 * 1000000 else delta
                         | None => 30 * 60 * 1000000
                         end)))
  ∧ (∀ key, key ≠ "exp" →
       Py.get key (access_token_claims utcnow data expires_delta) = Py.get key data)
  ∧ subject_of (access_token_claims utcnow data expires_delta) = subject_of data.
Proof.
  unfold access_token_claims. split; [|split].
  - by rewrite PyFacts.get_set_eq.
  - intros key Hne. by apply PyFacts.get_set_ne.
  - unfold subject_of. by rewrite PyFacts.get_set_ne.
Qed.

Lemma access_token_claims_spec_witness :
  Py.get "exp"
    (access_token_claims 1700000000000000
       [("sub", ClaimStr "admin@example.com"); ("exp", ClaimTime (Py.naive 5))] (Some 0))
  = Some (ClaimTime (Py.naive (1700000000000000 + 30 * 60 * 1000000)))
  ∧ (∀ key, key ≠ "exp" →
       Py.get key
         (access_token_claims 1700000000000000
            [("sub", ClaimStr "admin@example.com"); ("exp", ClaimTime (Py.naive 5))]
            (Some 0))
       = Py.get key
           [("sub", ClaimStr "admin@example.com"); ("exp", ClaimTime (Py.naive 5))])
  ∧ subject_of
      (access_token_claims 1700000000000000
         [("sub", ClaimStr "admin@example.com"); ("exp", ClaimTime (Py.naive 5))]
         (Some 0))
    = Some "admin@example.com".
Proof.
  apply (access_token_claims_spec 1700000000000000
           [("sub", ClaimStr "admin@example.com"); ("exp", ClaimTime (Py.naive 5))]
           (Some 0)).
  unfold datetime_representable. vm_compute. split; discriminate.
Defined.

(** X18. The token route, for an expiry a datetime can hold.  An unknown
    username is answered with the 401 without the password being verified.
    For a username of the user table the password is verified against the
    entry's hash: a match returns a bearer token encoding the entry's
    username as subject with an expiry 30 minutes after the call, a
    mismatch gives the same 401 as an unknown username, and when the
    verification raises (the library refuses the password) the exception
    is not handled and the route neither returns nor raises the 401. *)
Theorem login_for_access_token_spec (utcnow : Py.wall_clock)
    (form_data : OAuth2PasswordRequestForm)
    (Hrange : datetime_representable (utcnow + 1800000000)) :
  match Py.get (form_username form_data) fake_users_db with
  | Some user =>
      match pwd_verify (form_password form_data) (hashed_password user) with
      | Some true =>
          login_for_access_token utcnow form_data
          = Returned
              (Ok (mkTokenResponse
                     (jwt_encode [("sub", ClaimStr (username user));
                                  ("exp", ClaimTime (Py.naive (utcnow + 1800000000)))]
                        SECRET_KEY ALGORITHM)
                     "bearer"))
      | Some false =>
          login_for_access_token utcnow form_data = Returned (Raise incorrect_credentials)
      | None => login_for_access_token utcnow form_data = Unhandled
      end
  | None =>
      login_for_access_token utcnow form_data = Returned (Raise incorrect_credentials)
  end.
Proof.
  unfold Login.login_for_access_token, Login.authenticate_user, verify_password.
  destruct (Py.get (form_username form_data) fake_users_db) as [user|]; [|done].
  by destruct (pwd_verify (form_password form_data) (hashed_password user)) as [[|]|].
Qed.

Lemma keyed_by_username_get (key : string) (user : User) :
  keyed_by_username fake_users_db →
  Py.get key fake_users_db = Some user → username user = key.
Proof.
  intros Hkeyed Hget. apply PyFacts.get_Some_elem_of in Hget.
  unfold keyed_by_username in Hkeyed. rewrite Forall_forall in Hkeyed.
  exact (Hkeyed _ Hget).
Qed.

(** X19. Issuing and validating compose: when every entry of the user
    table sits under its own username, the credentials authenticate, and
    the decoder accepts the issued token and returns the subject it was
    encoded with, then the token route succeeds with a bearer token, validation of
    that token yields the very user that authenticated, and the admin gate
    lets that user through exactly when it is an admin. *)
Theorem issued_token_authenticates (utcnow : Py.wall_clock)
    (form_data : OAuth2PasswordRequestForm) (user : User)
    (Hkeyed : keyed_by_username fake_users_db)
    (Hauth : authenticate_user (form_username form_data) (form_password form_data)
             = Returned (Some user))
    (Hrange : datetime_representable (utcnow + 1800000000))
    (claims : Claims)
    (Hdecode :
       jwt_decode (create_access_token utcnow [("sub", ClaimStr (username user))] None)
         SECRET_KEY [ALGORITHM]
       = inr claims)
    (Hsubject :
       sub claims
       = subject_of (access_token_claims utcnow [("sub", ClaimStr (username user))] None)) :
  ∃ response,
    login_for_access_token utcnow form_data = Returned (Ok response)
    ∧ token_type response = "bearer"
    ∧ get_current_user (access_token response) = Ok user
    ∧ Depends_admin_required (access_token response)
      = if is_admin user then Ok user else Raise not_enough_privileges.
Proof.
  exists (mkTokenResponse
            (create_access_token utcnow [("sub", ClaimStr (username user))] None)
            "bearer").
  assert (Hstored : Py.get (username user) fake_users_db = Some user).
  { unfold Login.authenticate_user in Hauth.
    destruct (Py.get (form_username form_data) fake_users_db) as [u|] eqn:Hget;
      [|discriminate].
    destruct (verify_password _ _ _) as [[|]|]; simpl in Hauth; try discriminate.
    injection Hauth as ->.
    by rewrite (keyed_by_username_get _ _ Hkeyed Hget). }
  assert (Hcurrent :
            get_current_user
              (create_access_token utcnow [("sub", ClaimStr (username user))] None)
            = Ok user).
  { unfold Auth.get_current_user. rewrite Hdecode, Hsubject. simpl.
    by rewrite Hstored. }
  split; [|split; [done|split]].
  - unfold Login.login_for_access_token. by rewrite Hauth.
  - exact Hcurrent.
  - unfold Auth.Depends_admin_required. simpl. rewrite Hcurrent.
    unfold admin_required. by destruct (is_admin user).
Qed.

End Issuance.

(** Stand-ins for the examples: the stored hash is the password behind a
    prefix, a password that is a single NUL byte is refused by the
    verification, and the token is the subject itself. *)
Lemma login_for_access_token_spec_witness :
  let pwd_verify := λ plain hashed : string,
                      if bool_decide (plain = String Ascii.zero "")
                      then None
                      else Some (bool_decide (hashed = "bcrypt:" +:+ plain)) in
  let jwt_encode := λ (payload : Py.dict string claim) (key algorithm : string),
                      default "" (subject_of payload) in
  let users := provisioned_users_db "bcrypt:admin" in
  Login.login_for_access_token pwd_verify jwt_encode users 1700000000000000
    (mkForm "admin@example.com" "admin")
  = Returned (Ok (mkTokenResponse "admin@example.com" "bearer"))
  ∧ Login.login_for_access_token pwd_verify jwt_encode users 1700000000000000
      (mkForm "admin@example.com" "guess")
    = Returned (Raise incorrect_credentials)
  ∧ Login.login_for_access_token pwd_verify jwt_encode users 1700000000000000
      (mkForm "nobody@example.com" (String Ascii.zero ""))
    = Returned (Raise incorrect_credentials)
  ∧ Login.login_for_access_token pwd_verify jwt_encode users 1700000000000000
      (mkForm "admin@example.com" (String Ascii.zero ""))
    = Unhandled.
Proof.
  intros pwd_verify jwt_encode users.
  assert (Hrange : datetime_representable (1700000000000000 + 1800000000)).
  { unfold datetime_representable. vm_compute. split; discriminate. }
  split; [|split; [|split]].
  - exact (login_for_access_token_spec pwd_verify jwt_encode users
             1700000000000000 (mkForm "admin@example.com" "admin") Hrange).
  - exact (login_for_access_token_spec pwd_verify jwt_encode users
             1700000000000000 (mkForm "admin@example.com" "guess") Hrange).
  - exact (login_for_access_token_spec pwd_verify jwt_encode users
             1700000000000000 (mkForm "nobody@example.com" (String Ascii.zero "")) Hrange).
  - exact (login_for_access_token_spec pwd_verify jwt_encode users
             1700000000000000 (mkForm "admin@example.com" (String Ascii.zero "")) Hrange).
Defined.

Lemma issued_token_authenticates_witness :
  let pwd_verify := λ plain hashed : string,
                      Some (bool_decide (hashed = "bcrypt:" +:+ plain)) in
  let jwt_encode := λ (payload : Py.dict string claim) (key algorithm : string),
                      default "" (subject_of payload) in
  let jwt_decode := λ (token key : string) (algorithms : list string),
                      inr (mkClaims (Some token) (Some 1800000000)) : JWTError + Claims in
  let users := provisioned_users_db "bcrypt:admin" in
  ∃ response,
    Login.login_for_access_token pwd_verify jwt_encode users 0
      (mkForm "admin@example.com" "admin") = Returned (Ok response)
    ∧ token_type response = "bearer"
    ∧ Auth.get_current_user jwt_decode users (access_token response)
      = Ok (mkUser "admin@example.com" "bcrypt:admin" true)
    ∧ Auth.Depends_admin_required jwt_decode users (access_token response)
      = Ok (mkUser "admin@example.com" "bcrypt:admin" true).
Proof.
  intros pwd_verify jwt_encode jwt_decode users.
  apply (issued_token_authenticates pwd_verify jwt_encode jwt_decode users 0
           (mkForm "admin@example.com" "admin")
           (mkUser "admin@example.com" "bcrypt:admin" true)
           ltac:(unfold keyed_by_username; repeat constructor)
           eq_refl
           ltac:(unfold datetime_representable; vm_compute; split; discriminate)
           (mkClaims (Some "admin@example.com") (Some 1800000000))
           eq_refl eq_refl).
Defined.

End LoginExtra.
